(** * Authentication core of nestjs-auth

    A shallow embedding of [AuthService] (src/auth/auth.service.ts) and of
    [UsersService] (src/users/users.service.ts): password hashing and
    verification, the account-status gate of [login], federated login and
    the administrative ban.

    The file is organised as follows:
    - [JS]       : the JavaScript primitives the services rely on
                   (truthiness, [String.prototype.split], [Buffer.toString('hex')],
                   addition on numbers);
    - [Model]    : entities, exceptions, the persistent world and the monad
                   that threads it;
    - [Repo]     : the TypeORM repository operations used by the services;
    - [UsersService], [AuthService] : the services themselves;
    - [Fixtures] : a concrete environment and concrete worlds;
    - the theorems. *)

From Stdlib Require Import String Ascii List ZArith Lia Bool.
From Stdlib.Strings Require Import Byte.
Import ListNotations.
Open Scope string_scope.

(* ================================================================= *)
(** ** JavaScript primitives *)

Module JS.

(** A nullable string column: [None] is [null] / [undefined]. *)
Definition nullable := option string.

(** Truthiness of a nullable string: [null], [undefined] and the empty
    string are falsy, every other string is truthy. *)
Definition truthy (v : nullable) : bool :=
  match v with
  | None => false
  | Some s => negb (s =? "")
  end.

(** [s.split(sep)] for a one-character separator: the segments between
    the occurrences of [sep], empty ones included; the result always has
    at least one element. *)
Fixpoint split (sep : ascii) (s : string) : list string :=
  match s with
  | EmptyString => [EmptyString]
  | String c rest =>
      if Ascii.eqb c sep then EmptyString :: split sep rest
      else match split sep rest with
           | [] => [String c EmptyString]
           | seg :: segs => String c seg :: segs
           end
  end.

(** Lower-case hexadecimal digit of a nibble. *)
Definition hexDigit (n : N) : ascii :=
  match n with
  | 0 => "0" | 1 => "1" | 2 => "2" | 3 => "3"
  | 4 => "4" | 5 => "5" | 6 => "6" | 7 => "7"
  | 8 => "8" | 9 => "9" | 10 => "a" | 11 => "b"
  | 12 => "c" | 13 => "d" | 14 => "e" | _ => "f"
  end%N%char.

Definition hexHi (b : byte) : ascii := hexDigit (Byte.to_N b / 16).
Definition hexLo (b : byte) : ascii := hexDigit (Byte.to_N b mod 16).

(** [buf.toString('hex')]: two lower-case digits per byte. *)
Fixpoint toHex (buf : list byte) : string :=
  match buf with
  | [] => EmptyString
  | b :: rest => String (hexHi b) (String (hexLo b) (toHex rest))
  end.

(** Value of a hexadecimal digit, used to invert [toHex]. *)
Definition hexValue (c : ascii) : option N :=
  let n := N_of_ascii c in
  if ((48 <=? n) && (n <=? 57))%N then Some (n - 48)%N
  else if ((97 <=? n) && (n <=? 102))%N then Some (n - 87)%N
  else None.

Definition unhexPair (hi lo : ascii) : option byte :=
  match hexValue hi, hexValue lo with
  | Some h, Some l => Byte.of_N (16 * h + l)
  | _, _ => None
  end.

Fixpoint fromHex (s : string) : option (list byte) :=
  match s with
  | EmptyString => Some []
  | String hi (String lo rest) =>
      match unhexPair hi lo, fromHex rest with
      | Some b, Some bs => Some (b :: bs)
      | _, _ => None
      end
  | String _ EmptyString => None
  end.

(** [true] when the character [c] does not occur in [s]. *)
Fixpoint lacks (c : ascii) (s : string) : bool :=
  match s with
  | EmptyString => true
  | String d rest => negb (Ascii.eqb d c) && lacks c rest
  end.

(** [Number.isSafeInteger]: integers that doubles represent without
    gaps. *)
Definition isSafeInteger (n : Z) : Prop :=
  (- 2 ^ 53 < n < 2 ^ 53)%Z.

(** [n + 1] on a number that holds an integer (IEEE 754 binary64, round
    to nearest, ties to even).  The sum is exact up to [2^53]; between
    [2^53] and [2^54] the representable integers are the even ones and
    [n + 1] is a tie between [n] and [n + 2], which goes to the one with
    an even significand, a multiple of 4; beyond, [n + 1] rounds back
    to [n]. *)
Definition addOne (n : Z) : Z :=
  if ((- 2 ^ 53 <=? n) && (n <? 2 ^ 53))%Z then (n + 1)%Z
  else if (Z.abs n <=? 2 ^ 54)%Z then
         (if (n mod 4 =? 0)%Z then n else n + 2)%Z
       else n.

End JS.

(* ================================================================= *)
(** ** Entities, exceptions and the world *)

Module Model.

(** Modelled from the spec: the [UserStatus] enum of
    src/users/entities/user.entity.ts.  The services name [Inactive],
    [Deleted] and [Blocked]; the spec lists the four states. *)
Inductive UserStatus := Active | Inactive | Blocked | Deleted.

Definition UserStatus_eqb (a b : UserStatus) : bool :=
  match a, b with
  | Active, Active | Inactive, Inactive
  | Blocked, Blocked | Deleted, Deleted => true
  | _, _ => false
  end.

(** The columns of the [User] entity that the embedded functions read or
    write.  [password] and [googleId] are nullable: [createFromGoogle]
    stores no password and [create] stores no Google id. *)
Record User := mkUser {
  id : string;
  email : string;
  password : JS.nullable;
  googleId : JS.nullable;
  provider : JS.nullable;
  status : UserStatus;
  tokenVersion : Z;
  picture : JS.nullable;
  displayName : JS.nullable;
  firstName : JS.nullable;
  isActivatedWithEmail : bool
}.

(** Modelled from the spec: the [RefreshToken] entity of
    src/auth/entities/refresh-token.entity.ts, a persisted secret with
    a reference to the owning user. *)
Record RefreshToken := mkRefreshToken {
  rtId : string;
  rtUser : string;
  rtToken : string
}.

(** The argument of [UsersService.createFromGoogle]. *)
Record GoogleProfile := mkGoogleProfile {
  gpEmail : string;
  gpGoogleId : string;
  gpPicture : JS.nullable;
  gpDisplayName : JS.nullable;
  gpIsActivatedWithEmail : bool;
  gpFirstName : JS.nullable;
  gpProvider : string
}.

(** The claims of a verified Google ID token that [googleLogin] reads. *)
Record IdTokenPayload := mkIdTokenPayload {
  sub : string;
  pEmail : string;
  pPicture : JS.nullable;
  pDisplayName : JS.nullable;
  given_name : JS.nullable;
  email_verified : bool
}.

(** [{ sub, email }], the payload handed to [JwtService.sign]. *)
Record JwtPayload := mkJwtPayload {
  jwtSub : string;
  jwtEmail : string
}.

(** [{ token }], returned by [signup], [signin] and [googleLogin]. *)
Record TokenResponse := mkTokenResponse { token : string }.

(** [{ accessToken, refreshToken }], returned by [login]. *)
Record LoginResponse := mkLoginResponse {
  accessToken : string;
  refreshToken : string
}.

(** What a call can throw: the HTTP exceptions the services raise by
    name, [TypeError] for the runtime's own failure on a property read
    of [null], [QueryFailedError] for a constraint the database refuses
    and [VerificationError] for an ID token the provider's client
    rejects. *)
Inductive Exception :=
| NotFoundException (message : string)
| ForbiddenException (message : string)
| BadRequestException (message : string)
| UnprocessableEntityException (message : string)
| AccountInactiveException (message : string)
| TypeError (message : string)
| QueryFailedError (message : string)
| VerificationError (message : string).

(** An HTTP exception is a failure the service reports; the others
    escape as an internal server error. *)
Definition isHttpException (e : Exception) : bool :=
  match e with
  | NotFoundException _ | ForbiddenException _ | BadRequestException _
  | UnprocessableEntityException _ | AccountInactiveException _ => true
  | TypeError _ | QueryFailedError _ | VerificationError _ => false
  end.

Inductive Result (A : Type) :=
| Ok (value : A)
| Throw (e : Exception).
Arguments Ok {A} value.
Arguments Throw {A} e.

(** The state outside the process: both tables and the entropy that
    [crypto.randomBytes] reads, a tape of bytes consumed from the
    front. *)
Record World := mkWorld {
  users : list User;
  refreshTokens : list RefreshToken;
  entropy : nat -> byte
}.

(** An asynchronous method: it runs on the world and either resolves
    or rejects; what it wrote before rejecting stays written. *)
Definition M (A : Type) : Type := World -> Result A * World.

Definition ret {A} (a : A) : M A := fun w => (Ok a, w).

Definition throw {A} (e : Exception) : M A := fun w => (Throw e, w).

Definition bind {A B} (m : M A) (k : A -> M B) : M B :=
  fun w =>
    match m w with
    | (Ok a, w') => k a w'
    | (Throw e, w') => (Throw e, w')
    end.

Definition lift {A} (r : Result A) : M A := fun w => (r, w).

Definition gets {A} (f : World -> A) : M A := fun w => (Ok (f w), w).

Definition modify (f : World -> World) : M unit := fun w => (Ok tt, f w).

(** The collaborators injected into the services, whose code is not
    part of the embedded files. *)
Record Env := mkEnv {
  (** [crypto.scrypt(password, salt, keylen)] *)
  scrypt : string -> string -> nat -> list byte;
  (** [JwtService.sign], as a function of the payload: the issued-at
      stamp that the service adds is not modelled, so the tokens of two
      calls are never compared in a statement *)
  sign : JwtPayload -> string;
  (** [OAuth2Client.verifyIdToken] followed by [getPayload], as a function
      of the ID token: expiry is not modelled, so a statement about a
      later call takes the outcome of its verification as a hypothesis *)
  verifyIdToken : string -> Result IdTokenPayload;
  (** [TokenService.createAccessToken] *)
  createAccessToken : User -> M string;
  (** [TokenService.createRefreshToken] *)
  createRefreshToken : User -> M string;
  (** the primary key the database generates for a new row *)
  generateId : list User -> string;
  (** the default of the [status] column *)
  defaultStatus : UserStatus;
  (** whether the [email] column carries a unique constraint *)
  emailUnique : bool
}.

End Model.

Import Model.

Declare Scope monad_scope.
Delimit Scope monad_scope with monad.
Notation "x <- m ;; k" := (bind m (fun x => k))
  (at level 61, m at next level, right associativity) : monad_scope.
Notation "m ;;; k" := (bind m (fun _ => k))
  (at level 61, right associativity) : monad_scope.

Open Scope monad_scope.

(* ================================================================= *)
(** ** Repository operations *)

Module Repo.

Definition withUsers (f : list User -> list User) (w : World) : World :=
  {| users := f (users w);
     refreshTokens := refreshTokens w;
     entropy := entropy w |}.

Definition withRefreshTokens
  (f : list RefreshToken -> list RefreshToken) (w : World) : World :=
  {| users := users w;
     refreshTokens := f (refreshTokens w);
     entropy := entropy w |}.

Definition hasId (i : string) (u : User) : bool := id u =? i.

Definition hasEmail (e : string) (u : User) : bool := email u =? e.

Definition hasGoogleId (g : string) (u : User) : bool :=
  match googleId u with
  | Some g' => g' =? g
  | None => false
  end.

(** [repo.findOneBy(criteria)]: the first row that matches, or [null]. *)
Definition findOneBy (criteria : User -> bool) : M (option User) :=
  gets (fun w => find criteria (users w)).

(** [repo.save(user)] on an entity that was loaded from the table: the
    row with its primary key is overwritten. *)
Definition save (user : User) : M User :=
  modify (withUsers (map (fun row => if hasId (id user) row then user else row))) ;;;
  ret user.

(** [repo.save(repo.create(fields))]: a new row, with the primary key the
    database generates.  Where the [email] column is unique the database
    refuses a second row with the same email. *)
Definition insert (env : Env) (fields : string -> User) : M User :=
  fun w =>
    let user := fields (generateId env (users w)) in
    if emailUnique env && existsb (hasEmail (email user)) (users w)
    then (Throw (QueryFailedError
                   "duplicate key value violates unique constraint"), w)
    else (Ok user, withUsers (fun rows => (rows ++ [user])%list) w).

(** [refreshTokenRepo.delete({ user })]: every row that references the
    user goes. *)
Definition deleteTokensOf (user : User) : M unit :=
  modify (withRefreshTokens
            (filter (fun t => negb (rtUser t =? id user)))).

End Repo.

(* ================================================================= *)
(** ** UsersService (src/users/users.service.ts) *)

Module UsersService.

(** [create(email, password)].  Columns that are not given are [null];
    [status] takes the column default, and [tokenVersion] starts at 0 as
    the spec has it. *)
Definition create (env : Env) (email password : string) : M User :=
  Repo.insert env (fun newId =>
    {| id := newId; email := email; password := Some password;
       googleId := None; provider := None;
       status := defaultStatus env; tokenVersion := 0;
       picture := None; displayName := None; firstName := None;
       isActivatedWithEmail := false |}).

Definition findByEmail (email : string) : M (option User) :=
  Repo.findOneBy (Repo.hasEmail email).

Definition findOneById (id : string) : M (option User) :=
  Repo.findOneBy (Repo.hasId id).

Definition findByGoogleId (googleId : string) : M (option User) :=
  Repo.findOneBy (Repo.hasGoogleId googleId).

(** [createFromGoogle(profile)]: no password is stored. *)
Definition createFromGoogle (env : Env) (profile : GoogleProfile) : M User :=
  Repo.insert env (fun newId =>
    {| id := newId; email := gpEmail profile; password := None;
       googleId := Some (gpGoogleId profile);
       provider := Some (gpProvider profile);
       status := defaultStatus env; tokenVersion := 0;
       picture := gpPicture profile;
       displayName := gpDisplayName profile;
       firstName := gpFirstName profile;
       isActivatedWithEmail := gpIsActivatedWithEmail profile |}).

(** [user.status = UserStatus.Blocked; user.tokenVersion += 1] *)
Definition blocked (user : User) : User :=
  {| id := id user; email := email user; password := password user;
     googleId := googleId user; provider := provider user;
     status := Blocked; tokenVersion := JS.addOne (tokenVersion user);
     picture := picture user; displayName := displayName user;
     firstName := firstName user;
     isActivatedWithEmail := isActivatedWithEmail user |}.

(** [banUser(id)].  The [console.log] of the loaded row writes to the
    process output only and is left out. *)
Definition banUser (id : string) : M unit :=
  user <- Repo.findOneBy (Repo.hasId id) ;;
  match user with
  | None => throw (NotFoundException "User not found")
  | Some user =>
      let user := blocked user in
      Repo.save user ;;;
      Repo.deleteTokensOf user
  end.

(** [user.status = UserStatus.Inactive] *)
Definition inactive (user : User) : User :=
  {| id := id user; email := email user; password := password user;
     googleId := googleId user; provider := provider user;
     status := Inactive; tokenVersion := tokenVersion user;
     picture := picture user; displayName := displayName user;
     firstName := firstName user;
     isActivatedWithEmail := isActivatedWithEmail user |}.

(** [deactivate(id)] *)
Definition deactivate (id : string) : M unit :=
  user <- Repo.findOneBy (Repo.hasId id) ;;
  match user with
  | None => throw (NotFoundException "User not found")
  | Some user =>
      let user := inactive user in
      Repo.save user ;;;
      ret tt
  end.

End UsersService.

(* ================================================================= *)
(** ** AuthService (src/auth/auth.service.ts) *)

Module AuthService.

(** [crypto.randomBytes(n)]: the next [n] bytes of the entropy tape. *)
Definition randomBytes (n : nat) : M (list byte) :=
  fun w =>
    (Ok (map (entropy w) (seq 0 n)),
     {| users := users w;
        refreshTokens := refreshTokens w;
        entropy := fun i => entropy w (n + i)%nat |}).

(** [a !== b] where [a] may be [undefined] and [b] is a string. *)
Definition strictNe (a : JS.nullable) (b : string) : bool :=
  match a with
  | Some a' => negb (a' =? b)
  | None => true
  end.

Section WithEnv.

Variable env : Env.

Definition signup (email password : string) : M TokenResponse :=
  user <- UsersService.findByEmail email ;;
  match user with
  | Some user =>
      if JS.truthy (googleId user)
      then throw (ForbiddenException
        "This email is associated with a Google account. Please use Google to login.")
      else throw (BadRequestException "email in use")
  | None =>
      bytes <- randomBytes 8 ;;
      let salt := JS.toHex bytes in
      let hash := scrypt env password salt 32 in
      let result := salt ++ "." ++ JS.toHex hash in
      createdUser <- UsersService.create env email result ;;
      let payload :=
        {| jwtSub := id createdUser; jwtEmail := Model.email createdUser |} in
      ret {| token := sign env payload |}
  end.

Definition login (user : User) : M LoginResponse :=
  if UserStatus_eqb (status user) Inactive
     || UserStatus_eqb (status user) Deleted
     || UserStatus_eqb (status user) Blocked
  then throw (AccountInactiveException
    "Hesabınız aktif değil. Lütfen destekle iletişime geçin.")
  else
    accessToken <- createAccessToken env user ;;
    refreshToken <- createRefreshToken env user ;;
    ret {| accessToken := accessToken; refreshToken := refreshToken |}.

Definition signin (email password : string) : M TokenResponse :=
  user <- UsersService.findByEmail email ;;
  match user with
  | None => throw (NotFoundException "User not found")
  | Some user =>
      if negb (JS.truthy (Model.password user)) && JS.truthy (googleId user)
      then throw (ForbiddenException "Please use Google to login")
      else
        match Model.password user with
        | None =>
            throw (TypeError
              "Cannot read properties of null (reading 'split')")
        | Some stored =>
            let parts := JS.split "." stored in
            match nth_error parts 0 with
            | None =>
                throw (TypeError
                  "The salt argument must be of type string")
            | Some salt =>
                let storedHash := nth_error parts 1 in
                let hash := scrypt env password salt 32 in
                if strictNe storedHash (JS.toHex hash)
                then throw (BadRequestException "Wrong email or password")
                else
                  let payload :=
                    {| jwtSub := id user; jwtEmail := Model.email user |} in
                  ret {| token := sign env payload |}
            end
        end
  end.

Definition googleLogin (token : string) : M TokenResponse :=
  payload <- lift (verifyIdToken env token) ;;
  let googleId := sub payload in
  user <- UsersService.findByGoogleId googleId ;;
  user <- match user with
          | Some user => ret user
          | None =>
              UsersService.createFromGoogle env
                {| gpEmail := pEmail payload;
                   gpGoogleId := googleId;
                   gpPicture := pPicture payload;
                   gpDisplayName := pDisplayName payload;
                   gpFirstName := given_name payload;
                   gpProvider := "google";
                   gpIsActivatedWithEmail := email_verified payload |}
          end ;;
  let jwtPayload := {| jwtSub := id user; jwtEmail := Model.email user |} in
  ret {| Model.token := sign env jwtPayload |}.

Definition isGoogle (p : JS.nullable) : bool :=
  match p with
  | Some p' => p' =? "google"
  | None => false
  end.

Definition verifyUser (email password : string) : M User :=
  user <- UsersService.findByEmail email ;;
  match user with
  | None =>
      throw (NotFoundException "Bu e-posta adresli kullanıcı bulunamadı.")
  | Some user =>
      if isGoogle (provider user)
      then throw (UnprocessableEntityException
        "Bu mail adresiyle daha önce farklı bir yöntemle kaydolmuşsunuz.")
      else
        match Model.password user with
        | None =>
            throw (TypeError
              "Cannot read properties of null (reading 'split')")
        | Some stored =>
            let parts := JS.split "." stored in
            match nth_error parts 0 with
            | None =>
                throw (TypeError
                  "The salt argument must be of type string")
            | Some salt =>
                let storedHash := nth_error parts 1 in
                let hash := scrypt env password salt 32 in
                if strictNe storedHash (JS.toHex hash)
                then throw (BadRequestException "Wrong email or password")
                else ret user
            end
        end
  end.

End WithEnv.

End AuthService.

(* ================================================================= *)
(** ** Vocabulary of the statements *)

(** The bytes the next [randomBytes(n)] returns in world [w]. *)
Definition drawn (w : World) (n : nat) : list byte :=
  map (entropy w) (seq 0 n).

(** The world once [n] bytes of entropy are consumed. *)
Definition afterDraw (w : World) (n : nat) : World :=
  {| users := users w;
     refreshTokens := refreshTokens w;
     entropy := fun i => entropy w (n + i)%nat |}.

(** The stored value as the spec words it, [salt + "." + hex(derivedKey)],
    for the salt that encodes [saltBytes] and the key derived from the
    password and that salt. *)
Definition storedValue (env : Env) (password : string) (saltBytes : list byte)
  : string :=
  let salt := JS.toHex saltBytes in
  salt ++ "." ++ JS.toHex (scrypt env password salt 32).

(** The row that [UsersService.create] inserts. *)
Definition passwordUser (env : Env) (w : World) (email stored : string) : User :=
  {| id := generateId env (users w); email := email;
     password := Some stored; googleId := None; provider := None;
     status := defaultStatus env; tokenVersion := 0;
     picture := None; displayName := None; firstName := None;
     isActivatedWithEmail := false |}.

(** The world that [signup] leaves when the email was free. *)
Definition registered (env : Env) (email P : string) (w : World) : World :=
  Repo.withUsers
    (fun rows =>
       (rows ++ [passwordUser env w email (storedValue env P (drawn w 8))])%list)
    (afterDraw w 8).

(** The row that [googleLogin] inserts for a subject it does not know. *)
Definition googleUser (env : Env) (w : World) (p : IdTokenPayload) : User :=
  {| id := generateId env (users w); email := pEmail p;
     password := None; googleId := Some (sub p);
     provider := Some "google";
     status := defaultStatus env; tokenVersion := 0;
     picture := pPicture p; displayName := pDisplayName p;
     firstName := given_name p;
     isActivatedWithEmail := email_verified p |}.

(** The token a session-less sign-in hands out for a user. *)
Definition tokenFor (env : Env) (u : User) : TokenResponse :=
  {| token := sign env {| jwtSub := id u; jwtEmail := email u |} |}.

(** What [Repo.save (UsersService.blocked u)] does to a row. *)
Definition overwrite (u : User) (row : User) : User :=
  if Repo.hasId (id (UsersService.blocked u)) row
  then UsersService.blocked u else row.

(** What [Repo.save u'] does to a row: the row with the primary key of
    [u'] becomes [u']. *)
Definition replaceRow (u' : User) (row : User) : User :=
  if Repo.hasId (id u') row then u' else row.

(** The columns that identify an account and hold its credentials. *)
Definition credentials (u : User)
  : string * string * JS.nullable * JS.nullable * JS.nullable :=
  (id u, email u, password u, googleId u, provider u).

(** The Google subjects that the rows of a table carry. *)
Definition subjects (rows : list User) : list string :=
  flat_map (fun u => match googleId u with
                     | Some g => [g]
                     | None => []
                     end) rows.

Definition wrongPassword : Exception :=
  BadRequestException "Wrong email or password".

(** Uniform failure, as a property of an environment and a world: any two
    failed sign-in attempts surface the same exception. *)
Definition uniformFailure (env : Env) (w : World) : Prop :=
  forall email1 pw1 email2 pw2 e1 e2,
    fst (AuthService.signin env email1 pw1 w) = Throw e1 ->
    fst (AuthService.signin env email2 pw2 w) = Throw e2 ->
    e1 = e2.

(* ================================================================= *)
(** ** A concrete environment and concrete worlds *)

Module Fixtures.

(** A stand-in for the key derivation: the bytes of password and salt,
    padded with zeros and cut to the key length. *)
Definition toyScrypt (password salt : string) (keylen : nat) : list byte :=
  firstn keylen
    (map byte_of_ascii (list_ascii_of_string (password ++ salt))
     ++ repeat x00 keylen)%list.

Definition toySign (p : JwtPayload) : string :=
  "jwt:" ++ jwtSub p ++ ":" ++ jwtEmail p.

Definition bobPayload : IdTokenPayload :=
  {| sub := "g-bob"; pEmail := "bob@x.com"; pPicture := None;
     pDisplayName := None; given_name := Some "Bob";
     email_verified := true |}.

(** An identity that the store has not seen, with the email of a password
    account. *)
Definition malloryPayload : IdTokenPayload :=
  {| sub := "g-mallory"; pEmail := "a@x.com"; pPicture := None;
     pDisplayName := None; given_name := Some "Mallory";
     email_verified := true |}.

Definition toyVerifyIdToken (idToken : string) : Result IdTokenPayload :=
  if idToken =? "id-token-bob" then Ok bobPayload
  else if idToken =? "id-token-mallory" then Ok malloryPayload
  else Throw (VerificationError "Wrong number of segments in token").

Definition toyAccessToken (u : User) : M string :=
  ret ("access:" ++ id u).

Definition toyRefreshToken (u : User) : M string :=
  let secret := "refresh:" ++ id u in
  modify (Repo.withRefreshTokens
            (cons {| rtId := "rt-new"; rtUser := id u; rtToken := secret |})) ;;;
  ret secret.

Definition toyGenerateId (rows : list User) : string :=
  "u" ++ string_of_list_ascii (repeat "+"%char (List.length rows)).

Definition env (unique : bool) : Env :=
  {| scrypt := toyScrypt; sign := toySign;
     verifyIdToken := toyVerifyIdToken;
     createAccessToken := toyAccessToken;
     createRefreshToken := toyRefreshToken;
     generateId := toyGenerateId;
     defaultStatus := Active;
     emailUnique := unique |}.

(** An entropy tape: sixteen distinct bytes, then zeros. *)
Definition tape (i : nat) : byte :=
  nth i [x51; x07; xa3; x19; xee; x42; x8c; xd0;
         x3b; xf4; x66; x05; x9a; xc1; x2e; x70] x00.

(** A password account, registered with ["pw1"]. *)
Definition alice : User :=
  {| id := "1"; email := "a@x.com";
     password := Some (storedValue (env false) "pw1" [x0a; x0b; x0c; x0d; x0e; x0f; x10; x11]);
     googleId := None; provider := None;
     status := Active; tokenVersion := 3;
     picture := None; displayName := None; firstName := None;
     isActivatedWithEmail := true |}.

(** A Google account that an administrator banned. *)
Definition bob : User :=
  {| id := "2"; email := "bob@x.com";
     password := None; googleId := Some "g-bob"; provider := Some "google";
     status := Blocked; tokenVersion := 1;
     picture := None; displayName := None; firstName := Some "Bob";
     isActivatedWithEmail := true |}.

(** A row with neither a password nor a Google id. *)
Definition carol : User :=
  {| id := "3"; email := "carol@x.com";
     password := None; googleId := None; provider := None;
     status := Active; tokenVersion := 0;
     picture := None; displayName := None; firstName := None;
     isActivatedWithEmail := false |}.

(** A row whose stored value has no separator. *)
Definition dave : User :=
  {| id := "4"; email := "dave@x.com";
     password := Some "not-a-hash"; googleId := None; provider := None;
     status := Active; tokenVersion := 0;
     picture := None; displayName := None; firstName := None;
     isActivatedWithEmail := false |}.

Definition world : World :=
  {| users := [alice; bob; carol; dave];
     refreshTokens :=
       [ {| rtId := "rt-1"; rtUser := "1"; rtToken := "s1" |};
         {| rtId := "rt-2"; rtUser := "2"; rtToken := "s2" |};
         {| rtId := "rt-3"; rtUser := "1"; rtToken := "s3" |} ];
     entropy := tape |}.

(** A row whose stored value has a third segment. *)
Definition erin : User :=
  {| id := "5"; email := "erin@x.com";
     password := Some "ab.cd.ef"; googleId := None; provider := None;
     status := Active; tokenVersion := 0;
     picture := None; displayName := None; firstName := None;
     isActivatedWithEmail := false |}.

Definition legacyWorld : World :=
  {| users := [erin]; refreshTokens := []; entropy := tape |}.

End Fixtures.

(* ================================================================= *)
(** ** Facts about the JavaScript primitives *)

Section JSFacts.

Lemma split_lacks (c : ascii) (s : string) :
  JS.lacks c s = true -> JS.split c s = [s].
Proof.
  induction s as [|d rest IH]; simpl; intros H; [reflexivity|].
  apply andb_prop in H as [Hd Hrest].
  apply negb_true_iff in Hd. rewrite Hd, (IH Hrest). reflexivity.
Qed.

Lemma split_join (c : ascii) (a b : string) :
  JS.lacks c a = true -> JS.lacks c b = true ->
  JS.split c (a ++ String c b) = [a; b].
Proof.
  intros Ha Hb. induction a as [|d rest IH]; simpl in *.
  - rewrite Ascii.eqb_refl, (split_lacks _ _ Hb). reflexivity.
  - apply andb_prop in Ha as [Hd Hrest].
    apply negb_true_iff in Hd. rewrite Hd, (IH Hrest). reflexivity.
Qed.

Lemma split_nonempty (c : ascii) (s : string) : JS.split c s <> [].
Proof.
  destruct s as [|d rest]; simpl; [discriminate|].
  destruct (Ascii.eqb d c); [discriminate|].
  destruct (JS.split c rest); discriminate.
Qed.

Lemma unhexPair_hex (b : byte) :
  JS.unhexPair (JS.hexHi b) (JS.hexLo b) = Some b.
Proof. destruct b; reflexivity. Qed.

Lemma fromHex_toHex (buf : list byte) :
  JS.fromHex (JS.toHex buf) = Some buf.
Proof.
  induction buf as [|b rest IH]; simpl; [reflexivity|].
  rewrite unhexPair_hex, IH. reflexivity.
Qed.

Lemma toHex_inj (a b : list byte) : JS.toHex a = JS.toHex b -> a = b.
Proof.
  intros H. apply (f_equal JS.fromHex) in H.
  rewrite !fromHex_toHex in H. congruence.
Qed.

Lemma hex_digits_not_dot (b : byte) :
  Ascii.eqb (JS.hexHi b) "." = false /\ Ascii.eqb (JS.hexLo b) "." = false.
Proof. destruct b; split; reflexivity. Qed.

Lemma lacks_dot_toHex (buf : list byte) : JS.lacks "." (JS.toHex buf) = true.
Proof.
  induction buf as [|b rest IH]; simpl; [reflexivity|].
  destruct (hex_digits_not_dot b) as [Hhi Hlo].
  rewrite Hhi, Hlo, IH. reflexivity.
Qed.

Lemma length_toHex (buf : list byte) :
  String.length (JS.toHex buf) = 2 * List.length buf.
Proof. induction buf as [|b rest IH]; simpl; [reflexivity|lia]. Qed.

Lemma addOne_safe (n : Z) : JS.isSafeInteger n -> JS.addOne n = (n + 1)%Z.
Proof.
  unfold JS.isSafeInteger, JS.addOne. intros [Hlo Hhi].
  replace (- 2 ^ 53 <=? n)%Z with true by (symmetry; apply Z.leb_le; lia).
  replace (n <? 2 ^ 53)%Z with true by (symmetry; apply Z.ltb_lt; lia).
  reflexivity.
Qed.

(** The stored value of a password: hexadecimal salt, a dot, hexadecimal
    key.  Splitting it on the dot gives the two parts back. *)
Lemma split_stored (saltBytes key : list byte) :
  JS.split "." (JS.toHex saltBytes ++ "." ++ JS.toHex key)
  = [JS.toHex saltBytes; JS.toHex key].
Proof. apply split_join; apply lacks_dot_toHex. Qed.

End JSFacts.

(* ================================================================= *)
(** ** Facts about the tables *)

Section TableFacts.

Context {A : Type}.

Lemma Some_eq (a b : A) : Some a = Some b -> a = b.
Proof. congruence. Qed.

Lemma find_none_existsb (p : A -> bool) (l : list A) :
  find p l = None -> existsb p l = false.
Proof.
  induction l as [|x l IH]; simpl; [reflexivity|].
  destruct (p x); [discriminate|]. exact IH.
Qed.

Lemma find_app_none (p : A -> bool) (l l' : list A) :
  find p l = None -> find p (l ++ l') = find p l'.
Proof.
  induction l as [|x l IH]; simpl; [reflexivity|].
  destruct (p x); [discriminate|]. exact IH.
Qed.

Lemma find_app_some (p : A -> bool) (l l' : list A) (x : A) :
  find p l = Some x -> find p (l ++ l') = Some x.
Proof.
  induction l as [|y l IH]; simpl; [discriminate|].
  destruct (p y); [auto|]. exact IH.
Qed.

Lemma find_map_stable (p : A -> bool) (f : A -> A) (l : list A) :
  (forall x, p (f x) = p x) ->
  find p (map f l) = option_map f (find p l).
Proof.
  intros Hf. induction l as [|x l IH]; simpl; [reflexivity|].
  rewrite Hf. destruct (p x); [reflexivity|]. exact IH.
Qed.

Lemma find_holds (p : A -> bool) (l : list A) (x : A) :
  find p l = Some x -> p x = true.
Proof.
  induction l as [|y l IH]; simpl; [discriminate|].
  destruct (p y) eqn:E; [|exact IH].
  intros H. injection H as <-. exact E.
Qed.

End TableFacts.

(* ================================================================= *)
(** ** UsersService.banUser *)

Section BanUser.

Lemma banUser_found (i : string) (w : World) (u : User) :
  find (Repo.hasId i) (users w) = Some u ->
  UsersService.banUser i w =
    (Ok tt,
     {| users := map (overwrite u) (users w);
        refreshTokens :=
          filter (fun t => negb (rtUser t =? id u)) (refreshTokens w);
        entropy := entropy w |}).
Proof.
  intros Hfind.
  unfold UsersService.banUser, Repo.findOneBy, Repo.save,
    Repo.deleteTokensOf, bind, gets, modify, ret; simpl.
  rewrite Hfind. reflexivity.
Qed.

Lemma banUser_missing (i : string) (w : World) :
  find (Repo.hasId i) (users w) = None ->
  UsersService.banUser i w = (Throw (NotFoundException "User not found"), w).
Proof.
  intros Hfind.
  unfold UsersService.banUser, Repo.findOneBy, bind, gets, throw.
  rewrite Hfind. reflexivity.
Qed.

Lemma overwrite_keeps_id (u row : User) (j : string) :
  Repo.hasId j (overwrite u row) = Repo.hasId j row.
Proof.
  unfold overwrite, Repo.hasId; simpl.
  destruct (id row =? id u) eqn:E; [|reflexivity].
  apply String.eqb_eq in E. rewrite E. reflexivity.
Qed.

Lemma find_after_ban (u : User) (rows : list User) (j : string) :
  find (Repo.hasId j) (map (overwrite u) rows)
  = option_map (overwrite u) (find (Repo.hasId j) rows).
Proof. apply find_map_stable. intros x. apply overwrite_keeps_id. Qed.

Lemma overwrite_other (u row : User) :
  id row <> id u -> overwrite u row = row.
Proof.
  intros H. unfold overwrite, Repo.hasId; simpl.
  apply String.eqb_neq in H. rewrite H. reflexivity.
Qed.

Lemma overwrite_self (u row : User) :
  id row = id u -> overwrite u row = UsersService.blocked u.
Proof.
  intros H. unfold overwrite, Repo.hasId; simpl.
  rewrite H, String.eqb_refl. reflexivity.
Qed.

(** C3. For every existing user id, [banUser] sets the user's status to
    [Blocked], raises the user's [tokenVersion] by exactly one (so that the
    snapshot in every access token issued before no longer equals it) and
    deletes every refresh token that the user owns; the tokens and rows of
    other users stay as they were. *)
Theorem banUser_blocks_bumps_and_revokes (i : string) (w : World) (u : User) :
  find (Repo.hasId i) (users w) = Some u ->
  JS.isSafeInteger (tokenVersion u) ->
  exists w' u',
    UsersService.banUser i w = (Ok tt, w') /\
    find (Repo.hasId i) (users w') = Some u' /\
    status u' = Blocked /\
    tokenVersion u' = (tokenVersion u + 1)%Z /\
    tokenVersion u' <> tokenVersion u /\
    (forall t, In t (refreshTokens w') -> rtUser t <> i) /\
    (forall t, rtUser t <> i ->
               In t (refreshTokens w') <-> In t (refreshTokens w)) /\
    (forall j, j <> i ->
               find (Repo.hasId j) (users w') = find (Repo.hasId j) (users w)).
Proof.
  intros Hfind Hsafe.
  assert (Hid : id u = i).
  { apply find_holds in Hfind. apply String.eqb_eq. exact Hfind. }
  eexists. exists (UsersService.blocked u).
  split; [apply banUser_found; exact Hfind|]. simpl.
  split; [rewrite find_after_ban, Hfind; simpl;
          rewrite overwrite_self; reflexivity|].
  split; [reflexivity|].
  rewrite (addOne_safe _ Hsafe).
  split; [reflexivity|]. split; [lia|].
  split; [|split].
  - intros t Ht. apply filter_In in Ht as [_ Hne].
    apply negb_true_iff, String.eqb_neq in Hne. congruence.
  - intros t Hne. rewrite filter_In. split; [tauto|].
    intros Hin. split; [exact Hin|].
    apply negb_true_iff, String.eqb_neq. congruence.
  - intros j Hne. rewrite find_after_ban.
    destruct (find (Repo.hasId j) (users w)) as [r|] eqn:Hj; [|reflexivity].
    simpl. f_equal. apply overwrite_other.
    apply find_holds, String.eqb_eq in Hj. congruence.
Qed.

Lemma banUser_blocks_bumps_and_revokes_witness :
  exists w' u',
    UsersService.banUser "1" Fixtures.world = (Ok tt, w') /\
    find (Repo.hasId "1") (users w') = Some u' /\
    status u' = Blocked /\
    tokenVersion u' = (tokenVersion Fixtures.alice + 1)%Z /\
    tokenVersion u' <> tokenVersion Fixtures.alice /\
    (forall t, In t (refreshTokens w') -> rtUser t <> "1") /\
    (forall t, rtUser t <> "1" ->
               In t (refreshTokens w') <-> In t (refreshTokens Fixtures.world)) /\
    (forall j, j <> "1" ->
               find (Repo.hasId j) (users w')
               = find (Repo.hasId j) (users Fixtures.world)).
Proof.
  apply (banUser_blocks_bumps_and_revokes "1" Fixtures.world Fixtures.alice).
  - reflexivity.
  - unfold JS.isSafeInteger. simpl. lia.
Defined.

(** C10. For every user id that is not in the store, [banUser] fails with
    the user-not-found error and the world it leaves is the world it
    found: no row, no token version and no refresh token is touched. *)
Theorem banUser_unknown_id_changes_nothing (i : string) (w : World) :
  find (Repo.hasId i) (users w) = None ->
  UsersService.banUser i w = (Throw (NotFoundException "User not found"), w).
Proof. apply banUser_missing. Qed.

Lemma banUser_unknown_id_changes_nothing_witness :
  UsersService.banUser "99" Fixtures.world
  = (Throw (NotFoundException "User not found"), Fixtures.world).
Proof.
  apply (banUser_unknown_id_changes_nothing "99" Fixtures.world).
  reflexivity.
Defined.

End BanUser.

(* ================================================================= *)
(** ** AuthService: the paths of each method *)

Ltac run_service :=
  unfold AuthService.signup, AuthService.signin, AuthService.verifyUser,
    AuthService.googleLogin, AuthService.login, AuthService.randomBytes,
    UsersService.findByEmail, UsersService.findByGoogleId,
    UsersService.create, UsersService.createFromGoogle,
    Repo.findOneBy, Repo.insert, bind, gets, lift, throw, ret; simpl.

Section AuthPaths.

Variable env : Env.

Lemma stored_not_empty (a b : string) (c : ascii) :
  (a ++ String c b =? "") = false.
Proof. destruct a; reflexivity. Qed.

Lemma storedValue_truthy (P : string) (saltBytes : list byte) :
  JS.truthy (Some (storedValue env P saltBytes)) = true.
Proof.
  unfold storedValue, JS.truthy. simpl.
  rewrite stored_not_empty. reflexivity.
Qed.

Lemma split_storedValue (P : string) (saltBytes : list byte) :
  JS.split "." (storedValue env P saltBytes)
  = [JS.toHex saltBytes;
     JS.toHex (scrypt env P (JS.toHex saltBytes) 32)].
Proof. unfold storedValue. apply split_stored. Qed.

(** *** signup *)

Lemma signup_fresh (email P : string) (w : World) :
  find (Repo.hasEmail email) (users w) = None ->
  let u := passwordUser env w email (storedValue env P (drawn w 8)) in
  AuthService.signup env email P w
  = (Ok (tokenFor env u),
     Repo.withUsers (fun rows => (rows ++ [u])%list) (afterDraw w 8)).
Proof.
  intros Hfind u. run_service. rewrite Hfind.
  rewrite (find_none_existsb _ _ Hfind), andb_false_r. reflexivity.
Qed.

(** *** login *)

Lemma login_denied (u : User) (w : World) :
  status u <> Active ->
  AuthService.login env u w
  = (Throw (AccountInactiveException
              "Hesabınız aktif değil. Lütfen destekle iletişime geçin."), w).
Proof.
  intros H. run_service. destruct (status u); simpl; congruence.
Qed.

Lemma login_issues_only_when_active (u : User) (w w' : World)
  (r : LoginResponse) :
  AuthService.login env u w = (Ok r, w') -> status u = Active.
Proof.
  intros H. destruct (status u) eqn:E; [reflexivity| | |];
    rewrite login_denied in H by congruence; discriminate.
Qed.

(** *** signin *)

Lemma signin_unknown (email pw : string) (w : World) :
  find (Repo.hasEmail email) (users w) = None ->
  AuthService.signin env email pw w
  = (Throw (NotFoundException "User not found"), w).
Proof. intros H. run_service. rewrite H. reflexivity. Qed.

Lemma signin_google_only (email pw : string) (w : World) (u : User) :
  find (Repo.hasEmail email) (users w) = Some u ->
  JS.truthy (password u) = false ->
  JS.truthy (googleId u) = true ->
  AuthService.signin env email pw w
  = (Throw (ForbiddenException "Please use Google to login"), w).
Proof. intros H Hp Hg. run_service. rewrite H, Hp, Hg. reflexivity. Qed.

Lemma signin_null_password (email pw : string) (w : World) (u : User) :
  find (Repo.hasEmail email) (users w) = Some u ->
  password u = None ->
  JS.truthy (googleId u) = false ->
  AuthService.signin env email pw w
  = (Throw (TypeError "Cannot read properties of null (reading 'split')"), w).
Proof.
  intros H Hp Hg. run_service. rewrite H, Hp, Hg. reflexivity.
Qed.

(** A stored string reaches the comparison, whatever it contains. *)
Lemma signin_stored (email pw : string) (w : World) (u : User)
  (stored : string) :
  find (Repo.hasEmail email) (users w) = Some u ->
  password u = Some stored ->
  negb (JS.truthy (Some stored)) && JS.truthy (googleId u) = false ->
  exists salt,
    nth_error (JS.split "." stored) 0 = Some salt /\
    AuthService.signin env email pw w
    = (if AuthService.strictNe (nth_error (JS.split "." stored) 1)
            (JS.toHex (scrypt env pw salt 32))
       then Throw wrongPassword else Ok (tokenFor env u), w).
Proof.
  intros H Hp Hg. run_service. rewrite H, Hp, Hg.
  destruct (JS.split "." stored) as [|salt rest] eqn:E.
  - exfalso. exact (split_nonempty _ _ E).
  - exists salt. split; [reflexivity|]. simpl.
    destruct (AuthService.strictNe _ _); reflexivity.
Qed.

(** *** verifyUser *)

Lemma verifyUser_google (email pw : string) (w : World) (u : User) :
  find (Repo.hasEmail email) (users w) = Some u ->
  AuthService.isGoogle (provider u) = true ->
  AuthService.verifyUser env email pw w
  = (Throw (UnprocessableEntityException
              "Bu mail adresiyle daha önce farklı bir yöntemle kaydolmuşsunuz."), w).
Proof. intros H Hg. run_service. rewrite H, Hg. reflexivity. Qed.

Lemma verifyUser_null_password (email pw : string) (w : World) (u : User) :
  find (Repo.hasEmail email) (users w) = Some u ->
  AuthService.isGoogle (provider u) = false ->
  password u = None ->
  AuthService.verifyUser env email pw w
  = (Throw (TypeError "Cannot read properties of null (reading 'split')"), w).
Proof. intros H Hg Hp. run_service. rewrite H, Hg, Hp. reflexivity. Qed.

(** *** googleLogin *)

Lemma googleLogin_known_subject (idToken : string) (p : IdTokenPayload)
  (w : World) (u : User) :
  verifyIdToken env idToken = Ok p ->
  find (Repo.hasGoogleId (sub p)) (users w) = Some u ->
  AuthService.googleLogin env idToken w = (Ok (tokenFor env u), w).
Proof. intros Hv Hf. run_service. rewrite Hv, Hf. reflexivity. Qed.

Lemma googleLogin_unknown_subject (idToken : string) (p : IdTokenPayload)
  (w : World) :
  verifyIdToken env idToken = Ok p ->
  find (Repo.hasGoogleId (sub p)) (users w) = None ->
  emailUnique env && existsb (Repo.hasEmail (pEmail p)) (users w) = false ->
  let u := googleUser env w p in
  AuthService.googleLogin env idToken w
  = (Ok (tokenFor env u), Repo.withUsers (fun rows => (rows ++ [u])%list) w).
Proof. intros Hv Hf Hu u. run_service. rewrite Hv, Hf, Hu. reflexivity. Qed.

End AuthPaths.

(* ================================================================= *)
(** ** Password hashing and verification *)

Section Passwords.

Variable env : Env.

Lemma find_registered (email P : string) (w : World) :
  find (Repo.hasEmail email) (users w) = None ->
  find (Repo.hasEmail email) (users (registered env email P w))
  = Some (passwordUser env w email (storedValue env P (drawn w 8))).
Proof.
  intros Hfind. unfold registered. simpl.
  rewrite (find_app_none _ _ _ Hfind). simpl.
  unfold Repo.hasEmail. simpl. rewrite String.eqb_refl. reflexivity.
Qed.

(** Signing in after signing up compares the two derived keys, in
    hexadecimal, under the salt that [signup] drew. *)
Lemma signin_after_signup (email P Q : string) (w : World) :
  find (Repo.hasEmail email) (users w) = None ->
  let salt := JS.toHex (drawn w 8) in
  let u := passwordUser env w email (storedValue env P (drawn w 8)) in
  AuthService.signin env email Q (registered env email P w)
  = (if negb (JS.toHex (scrypt env P salt 32) =? JS.toHex (scrypt env Q salt 32))
     then Throw wrongPassword else Ok (tokenFor env u),
     registered env email P w).
Proof.
  intros Hfind salt u.
  destruct (signin_stored env email Q (registered env email P w) u
              (storedValue env P (drawn w 8))) as (salt' & Hsalt & Hrun).
  - apply find_registered. exact Hfind.
  - reflexivity.
  - rewrite storedValue_truthy. reflexivity.
  - rewrite split_storedValue in Hsalt, Hrun. simpl in Hsalt, Hrun.
    injection Hsalt as <-. exact Hrun.
Qed.

(** C5. For every password [P], registering with [P] and then signing in
    with [P] authenticates: the stored value that hashing [P] produced
    verifies [P], and [signin] returns a token of its own.  For every other
    password [Q], signing in fails with the wrong-password error unless the
    key derivation maps [Q] and [P] to the same key under the stored salt;
    a collision lets [Q] in. *)
Theorem hash_then_verify_roundtrip (email P : string) (w : World) :
  find (Repo.hasEmail email) (users w) = None ->
  exists t w',
    AuthService.signup env email P w = (Ok t, w') /\
    (exists t', AuthService.signin env email P w' = (Ok t', w')) /\
    (forall Q,
        scrypt env Q (JS.toHex (drawn w 8)) 32
        <> scrypt env P (JS.toHex (drawn w 8)) 32 ->
        AuthService.signin env email Q w' = (Throw wrongPassword, w')) /\
    (forall Q,
        scrypt env Q (JS.toHex (drawn w 8)) 32
        = scrypt env P (JS.toHex (drawn w 8)) 32 ->
        exists t', AuthService.signin env email Q w' = (Ok t', w')).
Proof.
  intros Hfind. eexists. exists (registered env email P w).
  split; [apply signup_fresh; exact Hfind|].
  split; [|split].
  - eexists. rewrite (signin_after_signup email P P w Hfind).
    rewrite String.eqb_refl. reflexivity.
  - intros Q Hne. rewrite (signin_after_signup email P Q w Hfind).
    destruct (String.eqb_spec
                (JS.toHex (scrypt env P (JS.toHex (drawn w 8)) 32))
                (JS.toHex (scrypt env Q (JS.toHex (drawn w 8)) 32)))
      as [Heq|_]; [|reflexivity].
    apply toHex_inj in Heq. congruence.
  - intros Q Heq. eexists. rewrite (signin_after_signup email P Q w Hfind).
    rewrite Heq, String.eqb_refl. reflexivity.
Qed.

(** Two stored values with different salts differ. *)
Lemma storedValue_salt_inj (P P' : string) (s s' : list byte) :
  storedValue env P s = storedValue env P' s' -> s = s'.
Proof.
  intros H. apply (f_equal (JS.split ".")) in H.
  rewrite !split_storedValue in H.
  injection H as Hsalt _. apply toHex_inj. exact Hsalt.
Qed.

Lemma length_drawn (w : World) (n : nat) : List.length (drawn w n) = n.
Proof. unfold drawn. rewrite length_map, length_seq. reflexivity. Qed.

(** C8. For every password, [signup] draws 8 fresh bytes of entropy,
    takes their hexadecimal form (16 characters) as the salt and stores
    exactly salt, a dot and the hexadecimal form of the key derived from
    the password and that salt.  A second [signup] with the same
    password draws the next 8 bytes of entropy, and the two stored
    values differ exactly when the two draws differ. *)
Theorem signup_stores_salted_hash (e1 e2 P : string) (w : World) :
  find (Repo.hasEmail e1) (users w) = None ->
  find (Repo.hasEmail e2) (users w) = None ->
  e1 <> e2 ->
  exists t1 w1 t2 w2 u1 u2,
    AuthService.signup env e1 P w = (Ok t1, w1) /\
    AuthService.signup env e2 P w1 = (Ok t2, w2) /\
    users w2 = (users w ++ [u1; u2])%list /\
    List.length (drawn w 8) = 8 /\
    String.length (JS.toHex (drawn w 8)) = 16 /\
    password u1
    = Some (JS.toHex (drawn w 8) ++ "."
            ++ JS.toHex (scrypt env P (JS.toHex (drawn w 8)) 32)) /\
    password u2
    = Some (JS.toHex (drawn w1 8) ++ "."
            ++ JS.toHex (scrypt env P (JS.toHex (drawn w1 8)) 32)) /\
    drawn w1 8 = map (fun i => entropy w (8 + i)) (seq 0 8) /\
    (password u1 = password u2 <-> drawn w 8 = drawn w1 8).
Proof.
  intros H1 H2 Hne.
  assert (H2' : find (Repo.hasEmail e2) (users (registered env e1 P w)) = None).
  { unfold registered. simpl. rewrite (find_app_none _ _ _ H2). simpl.
    unfold Repo.hasEmail. simpl.
    destruct (String.eqb_spec e1 e2); [contradiction|reflexivity]. }
  do 2 eexists. exists (tokenFor env
    (passwordUser env (registered env e1 P w) e2
       (storedValue env P (drawn (registered env e1 P w) 8)))).
  exists (registered env e2 P (registered env e1 P w)). do 2 eexists.
  split; [apply signup_fresh; exact H1|].
  split; [apply (signup_fresh env e2 P (registered env e1 P w) H2')|].
  split; [simpl; rewrite <- app_assoc; reflexivity|].
  split; [apply length_drawn|].
  split; [rewrite length_toHex, length_drawn; reflexivity|].
  split; [reflexivity|]. split; [reflexivity|]. split; [reflexivity|].
  unfold passwordUser; cbn [password]. split.
  - intros H. apply Some_eq in H. exact (storedValue_salt_inj _ _ _ _ H).
  - intros H. rewrite H. reflexivity.
Qed.

End Passwords.

Lemma hash_then_verify_roundtrip_witness :
  let env := Fixtures.env true in
  let salt := JS.toHex (drawn Fixtures.world 8) in
  exists t w',
    AuthService.signup env "new@x.com" "pw9" Fixtures.world = (Ok t, w') /\
    (exists t', AuthService.signin env "new@x.com" "pw9" w' = (Ok t', w')) /\
    (forall Q,
        scrypt env Q salt 32 <> scrypt env "pw9" salt 32 ->
        AuthService.signin env "new@x.com" Q w' = (Throw wrongPassword, w')) /\
    (forall Q,
        scrypt env Q salt 32 = scrypt env "pw9" salt 32 ->
        exists t', AuthService.signin env "new@x.com" Q w' = (Ok t', w')).
Proof.
  apply (hash_then_verify_roundtrip (Fixtures.env true) "new@x.com" "pw9"
           Fixtures.world).
  reflexivity.
Defined.

Lemma signup_stores_salted_hash_witness :
  let env := Fixtures.env true in
  let w := Fixtures.world in
  exists t1 w1 t2 w2 u1 u2,
    AuthService.signup env "new@x.com" "pw9" w = (Ok t1, w1) /\
    AuthService.signup env "other@x.com" "pw9" w1 = (Ok t2, w2) /\
    users w2 = (users w ++ [u1; u2])%list /\
    List.length (drawn w 8) = 8 /\
    String.length (JS.toHex (drawn w 8)) = 16 /\
    password u1
    = Some (JS.toHex (drawn w 8) ++ "."
            ++ JS.toHex (scrypt env "pw9" (JS.toHex (drawn w 8)) 32)) /\
    password u2
    = Some (JS.toHex (drawn w1 8) ++ "."
            ++ JS.toHex (scrypt env "pw9" (JS.toHex (drawn w1 8)) 32)) /\
    drawn w1 8 = map (fun i => entropy w (8 + i)) (seq 0 8) /\
    (password u1 = password u2 <-> drawn w 8 = drawn w1 8).
Proof.
  apply (signup_stores_salted_hash (Fixtures.env true)
           "new@x.com" "other@x.com" "pw9" Fixtures.world).
  - reflexivity.
  - reflexivity.
  - discriminate.
Defined.

(** The two draws of the fixture differ, and so do the stored values. *)
Example second_hash_differs :
  drawn Fixtures.world 8 <> drawn (afterDraw Fixtures.world 8) 8 /\
  storedValue (Fixtures.env true) "pw9" (drawn Fixtures.world 8)
  <> storedValue (Fixtures.env true) "pw9" (drawn (afterDraw Fixtures.world 8) 8).
Proof. split; vm_compute; discriminate. Qed.

(* ================================================================= *)
(** ** The account-status gate *)

(** X23. [login] is gated: it denies the three non-active states and issues
    tokens in no other state than [Active]. *)
Lemma login_gate (env : Env) (u : User) (w : World) :
  (status u <> Active ->
   AuthService.login env u w
   = (Throw (AccountInactiveException
               "Hesabınız aktif değil. Lütfen destekle iletişime geçin."), w))
  /\ (forall r w', AuthService.login env u w = (Ok r, w') -> status u = Active).
Proof.
  split; [apply login_denied|].
  intros r w'. apply login_issues_only_when_active.
Qed.

(** [googleLogin] never reads the status of the user it finds. *)
Lemma googleLogin_ignores_status (env : Env) (idToken : string)
  (p : IdTokenPayload) (w : World) (u : User) (s : UserStatus) :
  verifyIdToken env idToken = Ok p ->
  find (Repo.hasGoogleId (sub p)) (users w) = Some u ->
  status u = s ->
  AuthService.googleLogin env idToken w = (Ok (tokenFor env u), w).
Proof. intros Hv Hf _. exact (googleLogin_known_subject env _ _ _ _ Hv Hf). Qed.

(** C1. The status gate at a banned Google account: [login] denies it with
    [AccountInactiveException], and [googleLogin] with an ID token of the
    same account returns a signed token all the same. *)
Theorem googleLogin_issues_token_to_blocked_user :
  let env := Fixtures.env false in
  find (Repo.hasGoogleId "g-bob") (users Fixtures.world) = Some Fixtures.bob /\
  status Fixtures.bob = Blocked /\
  AuthService.login env Fixtures.bob Fixtures.world
  = (Throw (AccountInactiveException
              "Hesabınız aktif değil. Lütfen destekle iletişime geçin."),
     Fixtures.world) /\
  AuthService.googleLogin env "id-token-bob" Fixtures.world
  = (Ok {| token := "jwt:2:bob@x.com" |}, Fixtures.world).
Proof.
  cbv zeta. split; [reflexivity|]. split; [reflexivity|]. split.
  - apply login_denied. discriminate.
  - apply (googleLogin_ignores_status (Fixtures.env false) "id-token-bob"
             Fixtures.bobPayload Fixtures.world Fixtures.bob Blocked);
      reflexivity.
Qed.

(* ================================================================= *)
(** ** Federated login and an email that is taken *)

(** [googleLogin] with a subject it does not know inserts a row with the
    email of the token, whoever holds that email already; only a unique
    constraint of the table can stand in the way. *)
Lemma googleLogin_never_looks_up_email (env : Env) (idToken : string)
  (p : IdTokenPayload) (w : World) :
  verifyIdToken env idToken = Ok p ->
  find (Repo.hasGoogleId (sub p)) (users w) = None ->
  AuthService.googleLogin env idToken w
  = if emailUnique env && existsb (Repo.hasEmail (pEmail p)) (users w)
    then (Throw (QueryFailedError
                   "duplicate key value violates unique constraint"), w)
    else (Ok (tokenFor env (googleUser env w p)),
          Repo.withUsers (fun rows => (rows ++ [googleUser env w p])%list) w).
Proof.
  intros Hv Hf.
  destruct (emailUnique env && existsb (Repo.hasEmail (pEmail p)) (users w))
    eqn:E.
  - run_service. rewrite Hv, Hf, E. reflexivity.
  - apply googleLogin_unknown_subject; assumption.
Qed.

(** C2. A Google login whose subject has no local user and whose email
    belongs to a password account: without a unique constraint on the email
    column a second account with that email is inserted and a token for it
    is returned; with the constraint the insertion fails with the
    database's error.  No conflict is signalled and nothing is linked. *)
Theorem googleLogin_duplicates_password_account_email :
  let w := Fixtures.world in
  find (Repo.hasGoogleId "g-mallory") (users w) = None /\
  find (Repo.hasEmail "a@x.com") (users w) = Some Fixtures.alice /\
  JS.truthy (password Fixtures.alice) = true /\
  (exists w',
      AuthService.googleLogin (Fixtures.env false) "id-token-mallory" w
      = (Ok {| token := "jwt:u++++:a@x.com" |}, w') /\
      map email (users w')
      = ["a@x.com"; "bob@x.com"; "carol@x.com"; "dave@x.com"; "a@x.com"] /\
      map googleId (users w')
      = [None; Some "g-bob"; None; None; Some "g-mallory"]) /\
  AuthService.googleLogin (Fixtures.env true) "id-token-mallory" w
  = (Throw (QueryFailedError
              "duplicate key value violates unique constraint"), w).
Proof.
  cbv zeta. split; [reflexivity|]. split; [reflexivity|].
  split; [reflexivity|]. split.
  - eexists. split.
    + rewrite (googleLogin_never_looks_up_email (Fixtures.env false)
                 "id-token-mallory" Fixtures.malloryPayload Fixtures.world
                 eq_refl eq_refl).
      reflexivity.
    + split; reflexivity.
  - rewrite (googleLogin_never_looks_up_email (Fixtures.env true)
               "id-token-mallory" Fixtures.malloryPayload Fixtures.world
                 eq_refl eq_refl).
    reflexivity.
Qed.

(* ================================================================= *)
(** ** Failures of the password login *)

(** Failed sign-ins are not uniform: an unknown email and a wrong password
    surface different exceptions. *)
Lemma signin_failures_not_uniform :
  ~ uniformFailure (Fixtures.env false) Fixtures.world.
Proof.
  intros H.
  specialize (H "nobody@x.com" "pw1" "a@x.com" "wrong"
                (NotFoundException "User not found") wrongPassword
                eq_refl eq_refl).
  discriminate H.
Qed.

(** C4, amended. A [signin] with an unknown email fails with
    [NotFoundException].  A [signin] for a user with a non-empty stored
    string fails exactly when the second segment of the stored string is
    not the hexadecimal form of the key derived under the first, and then
    with the one [BadRequestException] that says "Wrong email or password":
    so it fails, with that exception, when the stored string has no
    separator, whatever the password, and when the stored string is
    well-formed and the password derives another key.  The two exceptions
    differ. *)
Theorem signin_failure_causes (env : Env) (email pw : string) (w : World) :
  (find (Repo.hasEmail email) (users w) = None ->
   AuthService.signin env email pw w
   = (Throw (NotFoundException "User not found"), w))
  /\ (forall u stored,
         find (Repo.hasEmail email) (users w) = Some u ->
         password u = Some stored ->
         stored <> "" ->
         (exists salt,
             nth_error (JS.split "." stored) 0 = Some salt /\
             AuthService.signin env email pw w
             = (if AuthService.strictNe (nth_error (JS.split "." stored) 1)
                     (JS.toHex (scrypt env pw salt 32))
                then Throw wrongPassword else Ok (tokenFor env u), w))
         /\ (JS.lacks "." stored = true ->
             AuthService.signin env email pw w = (Throw wrongPassword, w))
         /\ (forall P saltBytes,
                stored = storedValue env P saltBytes ->
                scrypt env pw (JS.toHex saltBytes) 32
                <> scrypt env P (JS.toHex saltBytes) 32 ->
                AuthService.signin env email pw w = (Throw wrongPassword, w)))
  /\ NotFoundException "User not found" <> wrongPassword.
Proof.
  split; [apply signin_unknown|]. split; [|discriminate].
  intros u stored Hfind Hp Hne.
  assert (G : negb (JS.truthy (Some stored)) && JS.truthy (googleId u) = false).
  { simpl. apply String.eqb_neq in Hne. rewrite Hne. reflexivity. }
  destruct (signin_stored env email pw w u stored Hfind Hp G)
    as (salt & Hsalt & Hrun).
  split; [exists salt; split; assumption|]. split.
  - intros Hdot. rewrite Hrun, (split_lacks _ _ Hdot). reflexivity.
  - intros P saltBytes -> Hkey. rewrite Hrun. clear Hrun.
    rewrite split_storedValue in Hsalt |- *. simpl in Hsalt |- *.
    injection Hsalt as <-.
    destruct (String.eqb_spec
                (JS.toHex (scrypt env P (JS.toHex saltBytes) 32))
                (JS.toHex (scrypt env pw (JS.toHex saltBytes) 32)))
      as [Heq|_]; [|reflexivity].
    apply toHex_inj in Heq. congruence.
Qed.

Lemma signin_failure_causes_witness :
  let env := Fixtures.env false in
  let w := Fixtures.world in
  AuthService.signin env "nobody@x.com" "pw1" w
  = (Throw (NotFoundException "User not found"), w)
  /\ AuthService.signin env "dave@x.com" "pw1" w = (Throw wrongPassword, w)
  /\ AuthService.signin env "a@x.com" "wrong" w = (Throw wrongPassword, w).
Proof.
  cbv zeta. split; [|split].
  - apply (proj1 (signin_failure_causes (Fixtures.env false)
                    "nobody@x.com" "pw1" Fixtures.world)).
    reflexivity.
  - apply (proj1 (proj2 (signin_failure_causes (Fixtures.env false)
                           "dave@x.com" "pw1" Fixtures.world))
             Fixtures.dave "not-a-hash");
      [reflexivity | reflexivity | discriminate | reflexivity].
  - apply (proj2 (proj2 (proj1 (proj2 (signin_failure_causes
                                         (Fixtures.env false)
                                         "a@x.com" "wrong" Fixtures.world))
                           Fixtures.alice _ eq_refl eq_refl
                           ltac:(discriminate)))
             "pw1" [x0a; x0b; x0c; x0d; x0e; x0f; x10; x11]);
      [reflexivity | vm_compute; discriminate].
Defined.

(** X22. A stored string, however malformed, never makes [signin] crash: what
    it throws is an HTTP exception. *)
Lemma signin_reports_on_stored_string (env : Env) (email pw : string)
  (w : World) (u : User) (stored : string) (e : Exception) :
  find (Repo.hasEmail email) (users w) = Some u ->
  password u = Some stored ->
  fst (AuthService.signin env email pw w) = Throw e ->
  isHttpException e = true.
Proof.
  intros Hfind Hp Hrun.
  destruct (negb (JS.truthy (Some stored)) && JS.truthy (googleId u)) eqn:G.
  - apply andb_prop in G as [G1 G2]. apply negb_true_iff in G1.
    rewrite <- Hp in G1.
    rewrite (signin_google_only env email pw w u Hfind G1 G2) in Hrun.
    simpl in Hrun. injection Hrun as <-. reflexivity.
  - destruct (signin_stored env email pw w u stored Hfind Hp G)
      as (salt & _ & Hsignin).
    rewrite Hsignin in Hrun.
    destruct (AuthService.strictNe _ _); simpl in Hrun; [|discriminate].
    injection Hrun as <-. reflexivity.
Qed.

(** C6. Password verification on a null stored value: for a row with
    neither a password nor a Google id, [signin] and [verifyUser] both end
    in the runtime's [TypeError] on [null.split], which is not one of the
    failures the service reports. *)
Theorem signin_crashes_on_null_stored_value :
  let env := Fixtures.env false in
  let crash := TypeError "Cannot read properties of null (reading 'split')" in
  find (Repo.hasEmail "carol@x.com") (users Fixtures.world)
  = Some Fixtures.carol /\
  password Fixtures.carol = None /\
  AuthService.signin env "carol@x.com" "pw1" Fixtures.world
  = (Throw crash, Fixtures.world) /\
  AuthService.verifyUser env "carol@x.com" "pw1" Fixtures.world
  = (Throw crash, Fixtures.world) /\
  isHttpException crash = false.
Proof.
  cbv zeta. split; [reflexivity|]. split; [reflexivity|]. split; [|split].
  - apply (signin_null_password _ _ _ _ Fixtures.carol); reflexivity.
  - apply (verifyUser_null_password _ _ _ _ Fixtures.carol); reflexivity.
  - reflexivity.
Qed.

(* ================================================================= *)
(** ** Federated-only accounts *)

(** C7. For every user record with a Google id and a null password, a
    password login is rejected and what it throws is not the wrong-password
    error: [signin] throws [ForbiddenException] (whenever the Google id is
    a non-empty string) and [verifyUser] throws
    [UnprocessableEntityException] (whenever the provider is recorded as
    google). *)
Theorem federated_only_rejects_password_login (env : Env)
  (email pw : string) (w : World) (u : User) (g : string) :
  find (Repo.hasEmail email) (users w) = Some u ->
  password u = None ->
  googleId u = Some g ->
  (exists e,
      AuthService.signin env email pw w = (Throw e, w) /\
      e <> wrongPassword /\
      (g <> "" -> e = ForbiddenException "Please use Google to login"))
  /\ (exists e,
         AuthService.verifyUser env email pw w = (Throw e, w) /\
         e <> wrongPassword /\
         (provider u = Some "google" ->
          e = UnprocessableEntityException
                "Bu mail adresiyle daha önce farklı bir yöntemle kaydolmuşsunuz.")).
Proof.
  intros Hfind Hp Hg.
  assert (Hnull : JS.truthy (password u) = false) by (rewrite Hp; reflexivity).
  split.
  - destruct (JS.truthy (googleId u)) eqn:Ht.
    + eexists. split; [apply (signin_google_only env _ _ _ u); assumption|].
      split; [discriminate | reflexivity].
    + eexists. split; [apply (signin_null_password env _ _ _ u); assumption|].
      split; [discriminate|]. intros Hne. exfalso.
      rewrite Hg in Ht. simpl in Ht. apply negb_false_iff in Ht.
      apply String.eqb_eq in Ht. contradiction.
  - destruct (AuthService.isGoogle (provider u)) eqn:Hprov.
    + eexists. split; [apply (verifyUser_google env _ _ _ u); assumption|].
      split; [discriminate | reflexivity].
    + eexists.
      split; [apply (verifyUser_null_password env _ _ _ u); assumption|].
      split; [discriminate|]. intros Hgoogle. exfalso.
      rewrite Hgoogle in Hprov. discriminate Hprov.
Qed.

Lemma federated_only_rejects_password_login_witness :
  let env := Fixtures.env false in
  let w := Fixtures.world in
  (exists e,
      AuthService.signin env "bob@x.com" "pw1" w = (Throw e, w) /\
      e <> wrongPassword /\
      ("g-bob" <> "" -> e = ForbiddenException "Please use Google to login"))
  /\ (exists e,
         AuthService.verifyUser env "bob@x.com" "pw1" w = (Throw e, w) /\
         e <> wrongPassword /\
         (provider Fixtures.bob = Some "google" ->
          e = UnprocessableEntityException
                "Bu mail adresiyle daha önce farklı bir yöntemle kaydolmuşsunuz.")).
Proof.
  apply (federated_only_rejects_password_login (Fixtures.env false)
           "bob@x.com" "pw1" Fixtures.world Fixtures.bob "g-bob");
    reflexivity.
Defined.

(** X21. The scenario of the spec: a federated login with a new identity creates
    a user without a password, and a password login for that email is then
    refused with [ForbiddenException]. *)
Lemma password_login_after_first_google_login (env : Env) (idToken pw : string)
  (p : IdTokenPayload) (w : World) :
  verifyIdToken env idToken = Ok p ->
  find (Repo.hasGoogleId (sub p)) (users w) = None ->
  find (Repo.hasEmail (pEmail p)) (users w) = None ->
  sub p <> "" ->
  exists t w' u,
    AuthService.googleLogin env idToken w = (Ok t, w') /\
    find (Repo.hasEmail (pEmail p)) (users w') = Some u /\
    password u = None /\
    AuthService.signin env (pEmail p) pw w'
    = (Throw (ForbiddenException "Please use Google to login"), w').
Proof.
  intros Hv Hg He Hsub.
  exists (tokenFor env (googleUser env w p)).
  exists (Repo.withUsers (fun rows => (rows ++ [googleUser env w p])%list) w).
  exists (googleUser env w p).
  assert (Hfind : find (Repo.hasEmail (pEmail p))
                    (users w ++ [googleUser env w p]) = Some (googleUser env w p)).
  { rewrite (find_app_none _ _ _ He). simpl.
    unfold Repo.hasEmail. simpl. rewrite String.eqb_refl. reflexivity. }
  split.
  - apply googleLogin_unknown_subject; [assumption..|].
    rewrite (find_none_existsb _ _ He). apply andb_false_r.
  - split; [exact Hfind|]. split; [reflexivity|].
    apply (signin_google_only env _ _ _ (googleUser env w p)).
    + exact Hfind.
    + reflexivity.
    + simpl. apply negb_true_iff, String.eqb_neq. exact Hsub.
Qed.

(* ================================================================= *)
(** ** Status transitions: deactivate and ban *)

Section Transitions.

Lemma replaceRow_keeps_id (u' row : User) (j : string) :
  Repo.hasId j (replaceRow u' row) = Repo.hasId j row.
Proof.
  unfold replaceRow, Repo.hasId.
  destruct (id row =? id u') eqn:E; [|reflexivity].
  apply String.eqb_eq in E. rewrite E. reflexivity.
Qed.

Lemma find_replaceRow (u' : User) (rows : list User) (j : string) :
  find (Repo.hasId j) (map (replaceRow u') rows)
  = option_map (replaceRow u') (find (Repo.hasId j) rows).
Proof. apply find_map_stable. intros x. apply replaceRow_keeps_id. Qed.

Lemma replaceRow_self (u' row : User) :
  id row = id u' -> replaceRow u' row = u'.
Proof.
  intros H. unfold replaceRow, Repo.hasId. rewrite H, String.eqb_refl.
  reflexivity.
Qed.

Lemma replaceRow_other (u' row : User) :
  id row <> id u' -> replaceRow u' row = row.
Proof.
  intros H. unfold replaceRow, Repo.hasId.
  apply String.eqb_neq in H. rewrite H. reflexivity.
Qed.

Lemma found_id (i : string) (rows : list User) (u : User) :
  find (Repo.hasId i) rows = Some u -> id u = i.
Proof. intros H. apply find_holds in H. apply String.eqb_eq. exact H. Qed.

Lemma deactivate_found (i : string) (w : World) (u : User) :
  find (Repo.hasId i) (users w) = Some u ->
  UsersService.deactivate i w
  = (Ok tt,
     Repo.withUsers (map (replaceRow (UsersService.inactive u))) w).
Proof.
  intros Hfind.
  unfold UsersService.deactivate, Repo.findOneBy, Repo.save,
    bind, gets, modify, ret; simpl.
  rewrite Hfind. reflexivity.
Qed.

Lemma banUser_found' (i : string) (w : World) (u : User) :
  find (Repo.hasId i) (users w) = Some u ->
  UsersService.banUser i w
  = (Ok tt,
     {| users := map (replaceRow (UsersService.blocked u)) (users w);
        refreshTokens :=
          filter (fun t => negb (rtUser t =? id u)) (refreshTokens w);
        entropy := entropy w |}).
Proof. apply banUser_found. Qed.

(** X1. Deactivation of an existing user sets the status to [Inactive] and
    nothing else: the token version and the credentials of the row stay,
    no refresh token is deleted and no other row changes. *)
Theorem deactivate_keeps_sessions (i : string) (w : World) (u : User) :
  find (Repo.hasId i) (users w) = Some u ->
  exists w' u',
    UsersService.deactivate i w = (Ok tt, w') /\
    find (Repo.hasId i) (users w') = Some u' /\
    status u' = Inactive /\
    tokenVersion u' = tokenVersion u /\
    credentials u' = credentials u /\
    refreshTokens w' = refreshTokens w /\
    entropy w' = entropy w /\
    (forall j, j <> i ->
               find (Repo.hasId j) (users w') = find (Repo.hasId j) (users w)).
Proof.
  intros Hfind. pose proof (found_id _ _ _ Hfind) as Hid.
  eexists. exists (UsersService.inactive u).
  split; [apply deactivate_found; exact Hfind|]. simpl.
  split; [rewrite find_replaceRow, Hfind; simpl;
          rewrite replaceRow_self; reflexivity|].
  do 5 (split; [reflexivity|]).
  intros j Hne. rewrite find_replaceRow.
  destruct (find (Repo.hasId j) (users w)) as [r|] eqn:Hj; [|reflexivity].
  simpl. f_equal. apply replaceRow_other.
  apply found_id in Hj. simpl. congruence.
Qed.

Lemma deactivate_keeps_sessions_witness :
  exists w' u',
    UsersService.deactivate "1" Fixtures.world = (Ok tt, w') /\
    find (Repo.hasId "1") (users w') = Some u' /\
    status u' = Inactive /\
    tokenVersion u' = tokenVersion Fixtures.alice /\
    credentials u' = credentials Fixtures.alice /\
    refreshTokens w' = refreshTokens Fixtures.world /\
    entropy w' = entropy Fixtures.world /\
    (forall j, j <> "1" ->
               find (Repo.hasId j) (users w')
               = find (Repo.hasId j) (users Fixtures.world)).
Proof.
  apply (deactivate_keeps_sessions "1" Fixtures.world Fixtures.alice).
  reflexivity.
Defined.

Lemma deactivate_missing (i : string) (w : World) :
  find (Repo.hasId i) (users w) = None ->
  UsersService.deactivate i w
  = (Throw (NotFoundException "User not found"), w).
Proof.
  intros Hfind.
  unfold UsersService.deactivate, Repo.findOneBy, bind, gets, throw.
  rewrite Hfind. reflexivity.
Qed.

(** X2. Deactivation of an id that is not in the table fails with
    [NotFoundException] and writes nothing. *)
Theorem deactivate_unknown_id_changes_nothing (i : string) (w : World) :
  find (Repo.hasId i) (users w) = None ->
  UsersService.deactivate i w
  = (Throw (NotFoundException "User not found"), w).
Proof. apply deactivate_missing. Qed.

Lemma deactivate_unknown_id_changes_nothing_witness :
  UsersService.deactivate "99" Fixtures.world
  = (Throw (NotFoundException "User not found"), Fixtures.world).
Proof.
  apply (deactivate_unknown_id_changes_nothing "99" Fixtures.world).
  reflexivity.
Defined.

(** X3. After a ban, [login] with the row read back from the table is denied
    with [AccountInactiveException], and the denial writes nothing. *)
Theorem login_denied_after_ban (env : Env) (i : string) (w : World)
  (u : User) :
  find (Repo.hasId i) (users w) = Some u ->
  exists w' u',
    UsersService.banUser i w = (Ok tt, w') /\
    UsersService.findOneById i w' = (Ok (Some u'), w') /\
    AuthService.login env u' w'
    = (Throw (AccountInactiveException
                "Hesabınız aktif değil. Lütfen destekle iletişime geçin."), w').
Proof.
  intros Hfind. pose proof (found_id _ _ _ Hfind) as Hid.
  eexists. exists (UsersService.blocked u).
  split; [apply banUser_found'; exact Hfind|].
  split.
  - unfold UsersService.findOneById, Repo.findOneBy, gets. simpl.
    rewrite find_replaceRow, Hfind. simpl.
    rewrite replaceRow_self; reflexivity.
  - apply login_denied. discriminate.
Qed.

Lemma login_denied_after_ban_witness :
  exists w' u',
    UsersService.banUser "1" Fixtures.world = (Ok tt, w') /\
    UsersService.findOneById "1" w' = (Ok (Some u'), w') /\
    AuthService.login (Fixtures.env false) u' w'
    = (Throw (AccountInactiveException
                "Hesabınız aktif değil. Lütfen destekle iletişime geçin."), w').
Proof.
  apply (login_denied_after_ban (Fixtures.env false) "1" Fixtures.world
           Fixtures.alice).
  reflexivity.
Defined.

(** X4. After a deactivation, [login] with the row read back from the table
    is denied with [AccountInactiveException]. *)
Theorem login_denied_after_deactivate (env : Env) (i : string) (w : World)
  (u : User) :
  find (Repo.hasId i) (users w) = Some u ->
  exists w' u',
    UsersService.deactivate i w = (Ok tt, w') /\
    UsersService.findOneById i w' = (Ok (Some u'), w') /\
    AuthService.login env u' w'
    = (Throw (AccountInactiveException
                "Hesabınız aktif değil. Lütfen destekle iletişime geçin."), w').
Proof.
  intros Hfind. pose proof (found_id _ _ _ Hfind) as Hid.
  eexists. exists (UsersService.inactive u).
  split; [apply deactivate_found; exact Hfind|].
  split.
  - unfold UsersService.findOneById, Repo.findOneBy, gets. simpl.
    rewrite find_replaceRow, Hfind. simpl.
    rewrite replaceRow_self; reflexivity.
  - apply login_denied. discriminate.
Qed.

Lemma login_denied_after_deactivate_witness :
  exists w' u',
    UsersService.deactivate "1" Fixtures.world = (Ok tt, w') /\
    UsersService.findOneById "1" w' = (Ok (Some u'), w') /\
    AuthService.login (Fixtures.env false) u' w'
    = (Throw (AccountInactiveException
                "Hesabınız aktif değil. Lütfen destekle iletişime geçin."), w').
Proof.
  apply (login_denied_after_deactivate (Fixtures.env false) "1"
           Fixtures.world Fixtures.alice).
  reflexivity.
Defined.

End Transitions.

Section TransitionsCompose.

Ltac read_back Hfind :=
  rewrite find_replaceRow, Hfind; simpl; rewrite replaceRow_self; reflexivity.

(** X5. A second ban of the same user succeeds again and raises the token
    version once more: the status stays [Blocked], the version ends two
    above where it started. *)
Theorem banUser_twice_bumps_twice (i : string) (w : World) (u : User) :
  find (Repo.hasId i) (users w) = Some u ->
  JS.isSafeInteger (tokenVersion u) ->
  JS.isSafeInteger (tokenVersion u + 1) ->
  exists w1 w2 u2,
    UsersService.banUser i w = (Ok tt, w1) /\
    UsersService.banUser i w1 = (Ok tt, w2) /\
    find (Repo.hasId i) (users w2) = Some u2 /\
    status u2 = Blocked /\
    tokenVersion u2 = (tokenVersion u + 2)%Z.
Proof.
  intros Hfind Hs1 Hs2. pose proof (found_id _ _ _ Hfind) as Hid.
  assert (H1 : find (Repo.hasId i)
                 (map (replaceRow (UsersService.blocked u)) (users w))
               = Some (UsersService.blocked u)) by read_back Hfind.
  do 2 eexists. exists (UsersService.blocked (UsersService.blocked u)).
  split; [apply banUser_found'; exact Hfind|].
  split; [apply banUser_found'; exact H1|].
  split; [cbn [users]; read_back H1|].
  split; [reflexivity|].
  cbn [tokenVersion UsersService.blocked].
  rewrite (addOne_safe _ Hs1), (addOne_safe _ Hs2). lia.
Qed.

Lemma banUser_twice_bumps_twice_witness :
  exists w1 w2 u2,
    UsersService.banUser "1" Fixtures.world = (Ok tt, w1) /\
    UsersService.banUser "1" w1 = (Ok tt, w2) /\
    find (Repo.hasId "1") (users w2) = Some u2 /\
    status u2 = Blocked /\
    tokenVersion u2 = (tokenVersion Fixtures.alice + 2)%Z.
Proof.
  apply (banUser_twice_bumps_twice "1" Fixtures.world Fixtures.alice).
  - reflexivity.
  - unfold JS.isSafeInteger. simpl. lia.
  - unfold JS.isSafeInteger. simpl. lia.
Defined.

(** X6. Deactivating a banned user succeeds and replaces [Blocked] by
    [Inactive]; the bumped token version stays and the refresh tokens
    that the ban deleted stay deleted. *)
Theorem deactivate_after_ban_overwrites_blocked (i : string) (w : World)
  (u : User) :
  find (Repo.hasId i) (users w) = Some u ->
  exists w1 w2 u2,
    UsersService.banUser i w = (Ok tt, w1) /\
    UsersService.deactivate i w1 = (Ok tt, w2) /\
    find (Repo.hasId i) (users w2) = Some u2 /\
    status u2 = Inactive /\
    tokenVersion u2 = JS.addOne (tokenVersion u) /\
    (forall t, In t (refreshTokens w2) -> rtUser t <> i).
Proof.
  intros Hfind. pose proof (found_id _ _ _ Hfind) as Hid.
  assert (H1 : find (Repo.hasId i)
                 (map (replaceRow (UsersService.blocked u)) (users w))
               = Some (UsersService.blocked u)) by read_back Hfind.
  do 2 eexists. exists (UsersService.inactive (UsersService.blocked u)).
  split; [apply banUser_found'; exact Hfind|].
  split; [apply deactivate_found; exact H1|].
  split; [cbn [users Repo.withUsers]; read_back H1|].
  split; [reflexivity|]. split; [reflexivity|].
  intros t Ht. cbn [refreshTokens Repo.withUsers] in Ht.
  apply filter_In in Ht as [_ Hne].
  apply negb_true_iff, String.eqb_neq in Hne. congruence.
Qed.

Lemma deactivate_after_ban_overwrites_blocked_witness :
  exists w1 w2 u2,
    UsersService.banUser "1" Fixtures.world = (Ok tt, w1) /\
    UsersService.deactivate "1" w1 = (Ok tt, w2) /\
    find (Repo.hasId "1") (users w2) = Some u2 /\
    status u2 = Inactive /\
    tokenVersion u2 = JS.addOne (tokenVersion Fixtures.alice) /\
    (forall t, In t (refreshTokens w2) -> rtUser t <> "1").
Proof.
  apply (deactivate_after_ban_overwrites_blocked "1" Fixtures.world
           Fixtures.alice).
  reflexivity.
Defined.

Lemma NoDup_map_eq {A B : Type} (f : A -> B) (l : list A) (x y : A) :
  NoDup (map f l) -> In x l -> In y l -> f x = f y -> x = y.
Proof.
  induction l as [|a l IH]; simpl; intros Hnd Hx Hy Hf; [contradiction|].
  inversion Hnd as [|b l' Hnotin Hnd']; subst.
  destruct Hx as [<-|Hx], Hy as [<-|Hy]; auto.
  - exfalso. apply Hnotin. rewrite Hf. apply in_map. exact Hy.
  - exfalso. apply Hnotin. rewrite <- Hf. apply in_map. exact Hx.
Qed.

(** Overwriting the row of [u] with a row of the same credentials keeps
    the credentials of the whole table, where primary keys are unique. *)
Lemma replaceRow_keeps_credentials (u u' : User) (rows : list User) :
  NoDup (map id rows) -> In u rows ->
  id u' = id u -> credentials u' = credentials u ->
  map credentials (map (replaceRow u') rows) = map credentials rows.
Proof.
  intros Hnd Hin Hid Hcred. rewrite map_map. apply map_ext_in.
  intros row Hrow. destruct (String.eqb_spec (id row) (id u')) as [E|E].
  - rewrite (replaceRow_self _ _ E), Hcred. f_equal.
    symmetry. apply (NoDup_map_eq id rows); auto. congruence.
  - rewrite (replaceRow_other _ _ E). reflexivity.
Qed.

(** X7. In a table with unique primary keys a ban, whatever its outcome,
    keeps the number of rows and the id, email, password, Google id and
    provider of every row. *)
Theorem banUser_keeps_credentials (i : string) (w : World) :
  NoDup (map id (users w)) ->
  map credentials (users (snd (UsersService.banUser i w)))
  = map credentials (users w).
Proof.
  intros Hnd.
  destruct (find (Repo.hasId i) (users w)) as [u|] eqn:Hfind.
  - rewrite (banUser_found' _ _ _ Hfind). cbn [snd users].
    apply (replaceRow_keeps_credentials u); auto.
    apply (find_some _ _ Hfind).
  - rewrite (banUser_missing _ _ Hfind). reflexivity.
Qed.

Lemma banUser_keeps_credentials_witness :
  map credentials (users (snd (UsersService.banUser "2" Fixtures.world)))
  = map credentials (users Fixtures.world).
Proof.
  apply (banUser_keeps_credentials "2" Fixtures.world).
  repeat (apply NoDup_cons; [simpl; intuition discriminate|]).
  apply NoDup_nil.
Defined.

(** X8. In a table with unique primary keys a deactivation, whatever its
    outcome, keeps the credentials of every row, every token version and
    every refresh token. *)
Theorem deactivate_keeps_credentials (i : string) (w : World) :
  NoDup (map id (users w)) ->
  let w' := snd (UsersService.deactivate i w) in
  map credentials (users w') = map credentials (users w) /\
  map tokenVersion (users w') = map tokenVersion (users w) /\
  refreshTokens w' = refreshTokens w.
Proof.
  intros Hnd.
  destruct (find (Repo.hasId i) (users w)) as [u|] eqn:Hfind.
  - cbv zeta. rewrite (deactivate_found _ _ _ Hfind).
    cbn [snd users refreshTokens Repo.withUsers].
    pose proof (find_some _ _ Hfind) as [Hin _].
    split; [apply (replaceRow_keeps_credentials u); auto|].
    split; [|reflexivity].
    rewrite map_map. apply map_ext_in. intros row Hrow.
    destruct (String.eqb_spec (id row) (id (UsersService.inactive u)))
      as [E|E].
    + rewrite (replaceRow_self _ _ E). simpl. f_equal.
      symmetry. apply (NoDup_map_eq id (users w)); auto.
    + rewrite (replaceRow_other _ _ E). reflexivity.
  - cbv zeta. rewrite (deactivate_missing _ _ Hfind).
    repeat split; reflexivity.
Qed.

Lemma deactivate_keeps_credentials_witness :
  let w' := snd (UsersService.deactivate "2" Fixtures.world) in
  map credentials (users w') = map credentials (users Fixtures.world) /\
  map tokenVersion (users w') = map tokenVersion (users Fixtures.world) /\
  refreshTokens w' = refreshTokens Fixtures.world.
Proof.
  apply (deactivate_keeps_credentials "2" Fixtures.world).
  repeat (apply NoDup_cons; [simpl; intuition discriminate|]).
  apply NoDup_nil.
Defined.

End TransitionsCompose.

(* ================================================================= *)
(** ** Registration *)

Section Registration.

Variable env : Env.

Lemma signup_taken (email P : string) (w : World) (u : User) :
  find (Repo.hasEmail email) (users w) = Some u ->
  AuthService.signup env email P w
  = (Throw (if JS.truthy (googleId u)
            then ForbiddenException
                   "This email is associated with a Google account. Please use Google to login."
            else BadRequestException "email in use"), w).
Proof.
  intros H. run_service. rewrite H.
  destruct (JS.truthy (googleId u)); reflexivity.
Qed.

Lemma NoDup_snoc {A : Type} (l : list A) (x : A) :
  NoDup l -> ~ In x l -> NoDup (l ++ [x]).
Proof.
  induction l as [|a l IH]; simpl; intros Hnd Hx.
  - constructor; [intros []|constructor].
  - inversion Hnd as [|b l' Hnotin Hnd']; subst. constructor.
    + rewrite in_app_iff. simpl. intros [H|[H|[]]]; [auto|].
      apply Hx. left. symmetry. exact H.
    + apply IH; [exact Hnd'|]. intros H. apply Hx. right. exact H.
Qed.

Lemma email_not_in_table (email : string) (rows : list User) :
  find (Repo.hasEmail email) rows = None -> ~ In email (map Model.email rows).
Proof.
  intros Hfind Hin. apply in_map_iff in Hin as (x & Hx & Hin).
  pose proof (find_none _ _ Hfind x Hin) as H.
  unfold Repo.hasEmail in H. rewrite Hx, String.eqb_refl in H. discriminate.
Qed.

(** X9. After a successful registration, a second registration with the same
    email fails with "email in use", whatever the password, and leaves
    the world as the first one left it. *)
Theorem signup_twice_same_email (email P : string) (w : World) :
  find (Repo.hasEmail email) (users w) = None ->
  exists t w1,
    AuthService.signup env email P w = (Ok t, w1) /\
    forall P',
      AuthService.signup env email P' w1
      = (Throw (BadRequestException "email in use"), w1).
Proof.
  intros Hfind. eexists. exists (registered env email P w).
  split; [apply signup_fresh; exact Hfind|].
  intros P'.
  rewrite (signup_taken email P' _ _ (find_registered env email P w Hfind)).
  reflexivity.
Qed.

(** X10. Registration, whatever its outcome, keeps every row that was there,
    adds at most one, touches no refresh token and keeps the emails of
    the table pairwise distinct when they were. *)
Theorem signup_keeps_emails_distinct (email P : string) (w : World) :
  NoDup (map Model.email (users w)) ->
  let w' := snd (AuthService.signup env email P w) in
  NoDup (map Model.email (users w')) /\
  (exists added, users w' = (users w ++ added)%list /\ List.length added <= 1) /\
  refreshTokens w' = refreshTokens w.
Proof.
  intros Hnd. cbv zeta.
  destruct (find (Repo.hasEmail email) (users w)) as [u|] eqn:Hfind.
  - rewrite (signup_taken email P w u Hfind). cbn [snd].
    split; [exact Hnd|]. split; [|reflexivity].
    exists []. rewrite app_nil_r. split; [reflexivity|simpl; lia].
  - rewrite (signup_fresh env email P w Hfind).
    cbn [snd users refreshTokens Repo.withUsers afterDraw].
    split; [|split; [|reflexivity]].
    + rewrite map_app. apply NoDup_snoc; [exact Hnd|].
      apply email_not_in_table. exact Hfind.
    + eexists. split; [reflexivity|simpl; lia].
Qed.

End Registration.

Lemma signup_twice_same_email_witness :
  exists t w1,
    AuthService.signup (Fixtures.env true) "new@x.com" "pw9" Fixtures.world
    = (Ok t, w1) /\
    forall P',
      AuthService.signup (Fixtures.env true) "new@x.com" P' w1
      = (Throw (BadRequestException "email in use"), w1).
Proof.
  apply (signup_twice_same_email (Fixtures.env true) "new@x.com" "pw9"
           Fixtures.world).
  reflexivity.
Defined.

Lemma signup_keeps_emails_distinct_witness :
  let w' := snd (AuthService.signup (Fixtures.env false) "new@x.com" "pw9"
                   Fixtures.world) in
  NoDup (map Model.email (users w')) /\
  (exists added,
      users w' = (users Fixtures.world ++ added)%list /\
      List.length added <= 1) /\
  refreshTokens w' = refreshTokens Fixtures.world.
Proof.
  apply (signup_keeps_emails_distinct (Fixtures.env false) "new@x.com" "pw9"
           Fixtures.world).
  repeat (apply NoDup_cons; [simpl; intuition discriminate|]).
  apply NoDup_nil.
Defined.

(* ================================================================= *)
(** ** Verification of a stored value *)

Section Verification.

Variable env : Env.

Lemma split_cons (c : ascii) (a rest : string) :
  JS.lacks c a = true ->
  JS.split c (a ++ String c rest) = a :: JS.split c rest.
Proof.
  intros Ha. induction a as [|d a IH]; simpl in *.
  - rewrite Ascii.eqb_refl. reflexivity.
  - apply andb_prop in Ha as [Hd Ha].
    apply negb_true_iff in Hd. rewrite Hd, (IH Ha). reflexivity.
Qed.

Lemma verifyUser_unknown (email pw : string) (w : World) :
  find (Repo.hasEmail email) (users w) = None ->
  AuthService.verifyUser env email pw w
  = (Throw (NotFoundException "Bu e-posta adresli kullanıcı bulunamadı."), w).
Proof. intros H. run_service. rewrite H. reflexivity. Qed.

Lemma verifyUser_stored (email pw : string) (w : World) (u : User)
  (stored : string) :
  find (Repo.hasEmail email) (users w) = Some u ->
  AuthService.isGoogle (provider u) = false ->
  password u = Some stored ->
  exists salt,
    nth_error (JS.split "." stored) 0 = Some salt /\
    AuthService.verifyUser env email pw w
    = (if AuthService.strictNe (nth_error (JS.split "." stored) 1)
            (JS.toHex (scrypt env pw salt 32))
       then Throw wrongPassword else Ok u, w).
Proof.
  intros H Hg Hp. run_service. rewrite H, Hg, Hp.
  destruct (JS.split "." stored) as [|salt rest] eqn:E.
  - exfalso. exact (split_nonempty _ _ E).
  - exists salt. split; [reflexivity|]. simpl.
    destruct (AuthService.strictNe _ _); reflexivity.
Qed.

Lemma guard_cases (u : User) :
  negb (JS.truthy (password u)) && JS.truthy (googleId u) = false ->
  (exists stored, password u = Some stored /\
     negb (JS.truthy (Some stored)) && JS.truthy (googleId u) = false)
  \/ (password u = None /\ JS.truthy (googleId u) = false).
Proof.
  intros G. destruct (password u) as [stored|] eqn:Hp.
  - left. exists stored. split; [reflexivity | exact G].
  - right. split; [reflexivity | exact G].
Qed.

(** X11. Neither [signin] nor [verifyUser] writes: whatever they return or
    throw, the tables and the entropy are as before. *)
Theorem signin_and_verifyUser_write_nothing (email pw : string) (w : World) :
  snd (AuthService.signin env email pw w) = w /\
  snd (AuthService.verifyUser env email pw w) = w.
Proof.
  destruct (find (Repo.hasEmail email) (users w)) as [u|] eqn:Hfind.
  - split.
    + destruct (negb (JS.truthy (password u)) && JS.truthy (googleId u))
        eqn:G.
      * apply andb_prop in G as [G1 G2]. apply negb_true_iff in G1.
        rewrite (signin_google_only env _ _ _ u Hfind G1 G2). reflexivity.
      * destruct (guard_cases u G) as [(stored & Hp & G')|[Hp Hg]].
        -- destruct (signin_stored env email pw w u stored Hfind Hp G')
             as (salt & _ & ->). reflexivity.
        -- rewrite (signin_null_password env _ _ _ u Hfind Hp Hg).
           reflexivity.
    + destruct (AuthService.isGoogle (provider u)) eqn:Hg.
      * rewrite (verifyUser_google env _ _ _ u Hfind Hg). reflexivity.
      * destruct (password u) as [stored|] eqn:Hp.
        -- destruct (verifyUser_stored email pw w u stored Hfind Hg Hp)
             as (salt & _ & ->). reflexivity.
        -- rewrite (verifyUser_null_password env _ _ _ u Hfind Hg Hp).
           reflexivity.
  - rewrite (signin_unknown env _ _ _ Hfind), (verifyUser_unknown _ _ _ Hfind).
    split; reflexivity.
Qed.

(** X12. A stored value without a dot verifies no password: for a password
    account whose stored value has no separator, [signin] and [verifyUser]
    throw the wrong-password error for every password. *)
Theorem stored_without_separator_never_verifies (email pw : string)
  (w : World) (u : User) (stored : string) :
  find (Repo.hasEmail email) (users w) = Some u ->
  password u = Some stored ->
  JS.lacks "." stored = true ->
  JS.truthy (googleId u) = false ->
  AuthService.isGoogle (provider u) = false ->
  AuthService.signin env email pw w = (Throw wrongPassword, w) /\
  AuthService.verifyUser env email pw w = (Throw wrongPassword, w).
Proof.
  intros Hfind Hp Hdot Hg Hprov. split.
  - destruct (signin_stored env email pw w u stored Hfind Hp)
      as (salt & _ & ->).
    { rewrite Hg. apply andb_false_r. }
    rewrite (split_lacks _ _ Hdot). reflexivity.
  - destruct (verifyUser_stored email pw w u stored Hfind Hprov Hp)
      as (salt & _ & ->).
    rewrite (split_lacks _ _ Hdot). reflexivity.
Qed.

(** X13. Only the first two segments of a stored value count: with a stored
    value [salt.hash.rest], [signin] compares the derived key with [hash]
    under [salt] and ignores [rest]. *)
Theorem stored_trailing_segments_ignored (email pw : string) (w : World)
  (u : User) (salt hash rest : string) :
  find (Repo.hasEmail email) (users w) = Some u ->
  password u = Some (salt ++ "." ++ hash ++ "." ++ rest) ->
  JS.lacks "." salt = true ->
  JS.lacks "." hash = true ->
  AuthService.signin env email pw w
  = (if negb (hash =? JS.toHex (scrypt env pw salt 32))
     then Throw wrongPassword else Ok (tokenFor env u), w).
Proof.
  intros Hfind Hp Hsalt Hhash.
  destruct (signin_stored env email pw w u _ Hfind Hp)
    as (salt' & Hs & ->).
  { unfold JS.truthy. simpl. rewrite stored_not_empty. reflexivity. }
  simpl in Hs |- *.
  rewrite (split_cons _ _ _ Hsalt) in Hs |- *.
  rewrite (split_cons _ _ _ Hhash).
  simpl in Hs |- *. injection Hs as <-. reflexivity.
Qed.

(** X14. Registering with [P] and then calling [verifyUser] with [P] returns
    the row that registration created; with a password whose derived key
    differs it throws the wrong-password error. *)
Theorem verifyUser_after_signup (email P : string) (w : World) :
  find (Repo.hasEmail email) (users w) = None ->
  exists t w' u,
    AuthService.signup env email P w = (Ok t, w') /\
    AuthService.verifyUser env email P w' = (Ok u, w') /\
    Model.email u = email /\
    t = tokenFor env u /\
    (forall Q,
        scrypt env Q (JS.toHex (drawn w 8)) 32
        <> scrypt env P (JS.toHex (drawn w 8)) 32 ->
        AuthService.verifyUser env email Q w' = (Throw wrongPassword, w')).
Proof.
  intros Hfind.
  set (u := passwordUser env w email (storedValue env P (drawn w 8))).
  exists (tokenFor env u), (registered env email P w), u.
  split; [apply signup_fresh; exact Hfind|].
  assert (Hrun : forall Q,
    AuthService.verifyUser env email Q (registered env email P w)
    = (if negb (JS.toHex (scrypt env P (JS.toHex (drawn w 8)) 32)
                =? JS.toHex (scrypt env Q (JS.toHex (drawn w 8)) 32))
       then Throw wrongPassword else Ok u, registered env email P w)).
  { intros Q.
    destruct (verifyUser_stored email Q (registered env email P w) u
                (storedValue env P (drawn w 8)))
      as (salt & Hs & Hrun);
      [apply find_registered; exact Hfind | reflexivity | reflexivity |].
    rewrite split_storedValue in Hs, Hrun. simpl in Hs, Hrun.
    injection Hs as <-. exact Hrun. }
  split; [rewrite Hrun, String.eqb_refl; reflexivity|].
  split; [reflexivity|]. split; [reflexivity|].
  intros Q Hne. rewrite Hrun.
  destruct (String.eqb_spec
              (JS.toHex (scrypt env P (JS.toHex (drawn w 8)) 32))
              (JS.toHex (scrypt env Q (JS.toHex (drawn w 8)) 32)))
    as [Heq|_]; [|reflexivity].
  apply toHex_inj in Heq. congruence.
Qed.

(** X15. On an account that neither guard catches (the provider is not google,
    and the password is set or the Google id is not), [signin] and
    [verifyUser] accept and reject alike: [signin] returns the token of
    the user that [verifyUser] returns, and throws what it throws. *)
Theorem signin_agrees_with_verifyUser (email pw : string) (w : World)
  (u : User) :
  find (Repo.hasEmail email) (users w) = Some u ->
  AuthService.isGoogle (provider u) = false ->
  negb (JS.truthy (password u)) && JS.truthy (googleId u) = false ->
  fst (AuthService.signin env email pw w)
  = match fst (AuthService.verifyUser env email pw w) with
    | Ok v => Ok (tokenFor env v)
    | Throw e => Throw e
    end.
Proof.
  intros Hfind Hprov G.
  destruct (guard_cases u G) as [(stored & Hp & G')|[Hp Hg]].
  - destruct (signin_stored env email pw w u stored Hfind Hp G')
      as (salt & Hs & ->).
    destruct (verifyUser_stored email pw w u stored Hfind Hprov Hp)
      as (salt' & Hs' & ->).
    rewrite Hs in Hs'. injection Hs' as <-.
    destruct (AuthService.strictNe _ _); reflexivity.
  - rewrite (signin_null_password env _ _ _ u Hfind Hp Hg).
    rewrite (verifyUser_null_password env _ _ _ u Hfind Hprov Hp).
    reflexivity.
Qed.

End Verification.

Lemma stored_without_separator_never_verifies_witness :
  AuthService.signin (Fixtures.env false) "dave@x.com" "pw1" Fixtures.world
  = (Throw wrongPassword, Fixtures.world) /\
  AuthService.verifyUser (Fixtures.env false) "dave@x.com" "pw1" Fixtures.world
  = (Throw wrongPassword, Fixtures.world).
Proof.
  apply (stored_without_separator_never_verifies (Fixtures.env false)
           "dave@x.com" "pw1" Fixtures.world Fixtures.dave "not-a-hash");
    reflexivity.
Defined.

Lemma stored_trailing_segments_ignored_witness :
  AuthService.signin (Fixtures.env false) "erin@x.com" "pw1"
    Fixtures.legacyWorld
  = (if negb ("cd" =? JS.toHex (scrypt (Fixtures.env false) "pw1" "ab" 32))
     then Throw wrongPassword
     else Ok (tokenFor (Fixtures.env false) Fixtures.erin),
     Fixtures.legacyWorld).
Proof.
  apply (stored_trailing_segments_ignored (Fixtures.env false)
           "erin@x.com" "pw1" Fixtures.legacyWorld Fixtures.erin
           "ab" "cd" "ef");
    reflexivity.
Defined.

Lemma verifyUser_after_signup_witness :
  let env := Fixtures.env true in
  let w := Fixtures.world in
  exists t w' u,
    AuthService.signup env "new@x.com" "pw9" w = (Ok t, w') /\
    AuthService.verifyUser env "new@x.com" "pw9" w' = (Ok u, w') /\
    Model.email u = "new@x.com" /\
    t = tokenFor env u /\
    (forall Q,
        scrypt env Q (JS.toHex (drawn w 8)) 32
        <> scrypt env "pw9" (JS.toHex (drawn w 8)) 32 ->
        AuthService.verifyUser env "new@x.com" Q w' = (Throw wrongPassword, w')).
Proof.
  apply (verifyUser_after_signup (Fixtures.env true) "new@x.com" "pw9"
           Fixtures.world).
  reflexivity.
Defined.

Lemma signin_agrees_with_verifyUser_witness :
  fst (AuthService.signin (Fixtures.env false) "a@x.com" "pw1" Fixtures.world)
  = match fst (AuthService.verifyUser (Fixtures.env false) "a@x.com" "pw1"
                 Fixtures.world) with
    | Ok v => Ok (tokenFor (Fixtures.env false) v)
    | Throw e => Throw e
    end.
Proof.
  apply (signin_agrees_with_verifyUser (Fixtures.env false) "a@x.com" "pw1"
           Fixtures.world Fixtures.alice);
    reflexivity.
Defined.

(* ================================================================= *)
(** ** The legacy sign-in and the ban *)

Section SigninAfterBan.

Variable env : Env.

Lemma id_not_in_table (i : string) (rows : list User) (u' : User) :
  find (Repo.hasId i) rows = None -> id u' = i ->
  map (replaceRow u') rows = rows.
Proof.
  intros Hfind Hid. rewrite <- (map_id rows) at 2. apply map_ext_in.
  intros row Hrow. apply replaceRow_other.
  pose proof (find_none _ _ Hfind row Hrow) as H.
  unfold Repo.hasId in H. apply String.eqb_neq in H. congruence.
Qed.

(** X16. [signin] does not read the status: a user who registered and was then
    banned still signs in with the registered password and receives a
    token. *)
Theorem signin_succeeds_after_ban (email P : string) (w : World) :
  find (Repo.hasEmail email) (users w) = None ->
  find (Repo.hasId (generateId env (users w))) (users w) = None ->
  exists t w1 w2 u2,
    AuthService.signup env email P w = (Ok t, w1) /\
    UsersService.banUser (generateId env (users w)) w1 = (Ok tt, w2) /\
    find (Repo.hasEmail email) (users w2) = Some u2 /\
    status u2 = Blocked /\
    exists t', AuthService.signin env email P w2 = (Ok t', w2).
Proof.
  intros Hemail Hid.
  set (u := passwordUser env w email (storedValue env P (drawn w 8))).
  assert (Hu : find (Repo.hasId (generateId env (users w)))
                 (users (registered env email P w)) = Some u).
  { unfold registered. cbn [users Repo.withUsers afterDraw].
    rewrite (find_app_none _ _ _ Hid). simpl.
    unfold Repo.hasId. simpl. rewrite String.eqb_refl. reflexivity. }
  assert (Hrows : map (replaceRow (UsersService.blocked u))
                    (users (registered env email P w))
                  = (users w ++ [UsersService.blocked u])%list).
  { unfold registered. cbn [users Repo.withUsers afterDraw].
    rewrite map_app.
    rewrite (id_not_in_table _ _ (UsersService.blocked u) Hid eq_refl). simpl.
    rewrite replaceRow_self; reflexivity. }
  exists (tokenFor env u), (registered env email P w).
  eexists. exists (UsersService.blocked u).
  split; [apply signup_fresh; exact Hemail|].
  split; [apply banUser_found'; exact Hu|].
  assert (Hfind : find (Repo.hasEmail email)
                    (users w ++ [UsersService.blocked u])
                  = Some (UsersService.blocked u)).
  { rewrite (find_app_none _ _ _ Hemail). simpl.
    unfold Repo.hasEmail. simpl. rewrite String.eqb_refl. reflexivity. }
  cbn [users]. rewrite Hrows.
  split; [exact Hfind|]. split; [reflexivity|].
  exists (tokenFor env u).
  destruct (signin_stored env email P
              {| users := (users w ++ [UsersService.blocked u])%list;
                 refreshTokens :=
                   filter (fun t => negb (rtUser t =? id u))
                     (refreshTokens (registered env email P w));
                 entropy := entropy (registered env email P w) |}
              (UsersService.blocked u)
              (storedValue env P (drawn w 8)) Hfind eq_refl)
    as (salt & Hs & Hrun).
  { rewrite storedValue_truthy. reflexivity. }
  rewrite Hrun. clear Hrun.
  rewrite split_storedValue in Hs |- *. simpl in Hs |- *.
  injection Hs as <-. rewrite String.eqb_refl. reflexivity.
Qed.

End SigninAfterBan.

Lemma signin_succeeds_after_ban_witness :
  let env := Fixtures.env true in
  let w := Fixtures.world in
  exists t w1 w2 u2,
    AuthService.signup env "new@x.com" "pw9" w = (Ok t, w1) /\
    UsersService.banUser (generateId env (users w)) w1 = (Ok tt, w2) /\
    find (Repo.hasEmail "new@x.com") (users w2) = Some u2 /\
    status u2 = Blocked /\
    exists t', AuthService.signin env "new@x.com" "pw9" w2 = (Ok t', w2).
Proof.
  apply (signin_succeeds_after_ban (Fixtures.env true) "new@x.com" "pw9"
           Fixtures.world);
    reflexivity.
Defined.

(* ================================================================= *)
(** ** Federated login: what it writes *)

Section FederatedLogin.

Variable env : Env.

Lemma googleLogin_rejected (idToken : string) (e : Exception) (w : World) :
  verifyIdToken env idToken = Throw e ->
  AuthService.googleLogin env idToken w = (Throw e, w).
Proof. intros Hv. run_service. rewrite Hv. reflexivity. Qed.

Lemma find_google_user (p : IdTokenPayload) (w : World) :
  find (Repo.hasGoogleId (sub p)) (users w) = None ->
  find (Repo.hasGoogleId (sub p)) (users w ++ [googleUser env w p])
  = Some (googleUser env w p).
Proof.
  intros Hf. rewrite (find_app_none _ _ _ Hf). simpl.
  unfold Repo.hasGoogleId. simpl. rewrite String.eqb_refl. reflexivity.
Qed.

Lemma subject_not_in_table (g : string) (rows : list User) :
  find (Repo.hasGoogleId g) rows = None -> ~ In g (subjects rows).
Proof.
  intros Hfind Hin. unfold subjects in Hin.
  apply in_flat_map in Hin as (x & Hx & Hin).
  pose proof (find_none _ _ Hfind x Hx) as H.
  unfold Repo.hasGoogleId in H.
  destruct (googleId x) as [g'|]; [|contradiction].
  destruct Hin as [->|[]]. rewrite String.eqb_refl in H. discriminate.
Qed.

Lemma subjects_app (rows rows' : list User) :
  subjects (rows ++ rows') = (subjects rows ++ subjects rows')%list.
Proof. unfold subjects. apply flat_map_app. Qed.

(** X17. A federated login, whatever its outcome, keeps every row that was
    there and adds at most one, and none when it throws; it touches no
    refresh token and draws no entropy. *)
Theorem googleLogin_adds_at_most_one_row (idToken : string) (w : World) :
  let r := AuthService.googleLogin env idToken w in
  refreshTokens (snd r) = refreshTokens w /\
  entropy (snd r) = entropy w /\
  exists added,
    users (snd r) = (users w ++ added)%list /\
    List.length added <= 1 /\
    (forall e, fst r = Throw e -> added = []).
Proof.
  cbv zeta.
  assert (Hsame : forall r : Result TokenResponse,
    refreshTokens (snd (r, w)) = refreshTokens w /\
    entropy (snd (r, w)) = entropy w /\
    exists added,
      users (snd (r, w)) = (users w ++ added)%list /\
      List.length added <= 1 /\
      (forall e, fst (r, w) = Throw e -> added = [])).
  { intros r. split; [reflexivity|]. split; [reflexivity|].
    exists []. rewrite app_nil_r. repeat split; simpl; auto. }
  destruct (verifyIdToken env idToken) as [p|e] eqn:Hv.
  - destruct (find (Repo.hasGoogleId (sub p)) (users w)) as [u|] eqn:Hf.
    + rewrite (googleLogin_known_subject env _ _ _ _ Hv Hf). apply Hsame.
    + rewrite (googleLogin_never_looks_up_email env _ _ _ Hv Hf).
      destruct (emailUnique env
                && existsb (Repo.hasEmail (pEmail p)) (users w));
        [apply Hsame|].
      split; [reflexivity|]. split; [reflexivity|].
      exists [googleUser env w p]. split; [reflexivity|].
      split; [simpl; lia|]. intros e He. discriminate He.
  - rewrite (googleLogin_rejected _ _ _ Hv). apply Hsame.
Qed.

(** X18. The first federated login of a subject creates its row; a later
    login with an ID token that verifies to the same subject finds that
    row, returns a token and writes nothing. *)
Theorem googleLogin_twice_creates_once (idToken idToken' : string)
  (p p' : IdTokenPayload) (w : World) :
  verifyIdToken env idToken = Ok p ->
  find (Repo.hasGoogleId (sub p)) (users w) = None ->
  emailUnique env && existsb (Repo.hasEmail (pEmail p)) (users w) = false ->
  verifyIdToken env idToken' = Ok p' ->
  sub p' = sub p ->
  exists t w1,
    AuthService.googleLogin env idToken w = (Ok t, w1) /\
    List.length (users w1) = S (List.length (users w)) /\
    exists t', AuthService.googleLogin env idToken' w1 = (Ok t', w1).
Proof.
  intros Hv Hf Hu Hv' Hsub.
  exists (tokenFor env (googleUser env w p)).
  exists (Repo.withUsers (fun rows => (rows ++ [googleUser env w p])%list) w).
  split; [apply googleLogin_unknown_subject; assumption|].
  split; [simpl; rewrite length_app; simpl; lia|].
  exists (tokenFor env (googleUser env w p)).
  apply (googleLogin_known_subject env idToken' p').
  - exact Hv'.
  - rewrite Hsub. apply find_google_user. exact Hf.
Qed.

(** X19. After the first federated login of an identity whose email was free,
    registering that email with a password is refused with
    [ForbiddenException] and writes nothing. *)
Theorem signup_refused_after_google_login (idToken : string)
  (p : IdTokenPayload) (w : World) :
  verifyIdToken env idToken = Ok p ->
  find (Repo.hasGoogleId (sub p)) (users w) = None ->
  find (Repo.hasEmail (pEmail p)) (users w) = None ->
  sub p <> "" ->
  exists t w1,
    AuthService.googleLogin env idToken w = (Ok t, w1) /\
    forall P,
      AuthService.signup env (pEmail p) P w1
      = (Throw (ForbiddenException
                  "This email is associated with a Google account. Please use Google to login."),
         w1).
Proof.
  intros Hv Hg He Hsub.
  exists (tokenFor env (googleUser env w p)).
  exists (Repo.withUsers (fun rows => (rows ++ [googleUser env w p])%list) w).
  split.
  - apply googleLogin_unknown_subject; [assumption..|].
    rewrite (find_none_existsb _ _ He). apply andb_false_r.
  - intros P.
    assert (Hfind : find (Repo.hasEmail (pEmail p))
                      (users w ++ [googleUser env w p])
                    = Some (googleUser env w p)).
    { rewrite (find_app_none _ _ _ He). simpl.
      unfold Repo.hasEmail. simpl. rewrite String.eqb_refl. reflexivity. }
    rewrite (signup_taken env (pEmail p) P
               (Repo.withUsers
                  (fun rows => (rows ++ [googleUser env w p])%list) w)
               (googleUser env w p) Hfind).
    simpl. apply String.eqb_neq in Hsub. rewrite Hsub. reflexivity.
Qed.

(** X20. A federated login, whatever its outcome, keeps the Google subjects of
    the table pairwise distinct when they were: no subject gets a second
    row. *)
Theorem googleLogin_keeps_subjects_distinct (idToken : string) (w : World) :
  NoDup (subjects (users w)) ->
  NoDup (subjects (users (snd (AuthService.googleLogin env idToken w)))).
Proof.
  intros Hnd.
  destruct (verifyIdToken env idToken) as [p|e] eqn:Hv.
  - destruct (find (Repo.hasGoogleId (sub p)) (users w)) as [u|] eqn:Hf.
    + rewrite (googleLogin_known_subject env _ _ _ _ Hv Hf). exact Hnd.
    + rewrite (googleLogin_never_looks_up_email env _ _ _ Hv Hf).
      destruct (emailUnique env
                && existsb (Repo.hasEmail (pEmail p)) (users w));
        [exact Hnd|].
      cbn [snd users Repo.withUsers]. rewrite subjects_app. simpl.
      apply NoDup_snoc; [exact Hnd|].
      apply subject_not_in_table. exact Hf.
  - rewrite (googleLogin_rejected _ _ _ Hv). exact Hnd.
Qed.

End FederatedLogin.

Lemma googleLogin_twice_creates_once_witness :
  exists t w1,
    AuthService.googleLogin (Fixtures.env false) "id-token-mallory"
      Fixtures.world = (Ok t, w1) /\
    List.length (users w1) = S (List.length (users Fixtures.world)) /\
    exists t',
      AuthService.googleLogin (Fixtures.env false) "id-token-mallory" w1
      = (Ok t', w1).
Proof.
  apply (googleLogin_twice_creates_once (Fixtures.env false)
           "id-token-mallory" "id-token-mallory"
           Fixtures.malloryPayload Fixtures.malloryPayload Fixtures.world);
    reflexivity.
Defined.

Lemma signup_refused_after_google_login_witness :
  exists t w1,
    AuthService.googleLogin (Fixtures.env true) "id-token-mallory"
      Fixtures.legacyWorld = (Ok t, w1) /\
    forall P,
      AuthService.signup (Fixtures.env true) "a@x.com" P w1
      = (Throw (ForbiddenException
                  "This email is associated with a Google account. Please use Google to login."),
         w1).
Proof.
  apply (signup_refused_after_google_login (Fixtures.env true)
           "id-token-mallory" Fixtures.malloryPayload Fixtures.legacyWorld);
    [reflexivity | reflexivity | reflexivity | discriminate].
Defined.

Lemma googleLogin_keeps_subjects_distinct_witness :
  NoDup (subjects (users (snd (AuthService.googleLogin (Fixtures.env false)
                                 "id-token-mallory" Fixtures.world)))).
Proof.
  apply (googleLogin_keeps_subjects_distinct (Fixtures.env false)
           "id-token-mallory" Fixtures.world).
  repeat (apply NoDup_cons; [simpl; intuition discriminate|]).
  apply NoDup_nil.
Defined.

(* ================================================================= *)
(** ** Instances at the fixtures *)

Lemma password_login_after_first_google_login_witness :
  exists t w' u,
    AuthService.googleLogin (Fixtures.env true) "id-token-mallory"
      Fixtures.legacyWorld = (Ok t, w') /\
    find (Repo.hasEmail "a@x.com") (users w') = Some u /\
    password u = None /\
    AuthService.signin (Fixtures.env true) "a@x.com" "pw1" w'
    = (Throw (ForbiddenException "Please use Google to login"), w').
Proof.
  apply (password_login_after_first_google_login (Fixtures.env true)
           "id-token-mallory" "pw1" Fixtures.malloryPayload
           Fixtures.legacyWorld);
    [reflexivity | reflexivity | reflexivity | discriminate].
Defined.

Lemma signin_reports_on_stored_string_witness :
  isHttpException wrongPassword = true.
Proof.
  apply (signin_reports_on_stored_string (Fixtures.env false)
           "dave@x.com" "pw1" Fixtures.world Fixtures.dave "not-a-hash"
           wrongPassword);
    reflexivity.
Defined.

Lemma login_gate_witness :
  AuthService.login (Fixtures.env false) Fixtures.bob Fixtures.world
  = (Throw (AccountInactiveException
              "Hesabınız aktif değil. Lütfen destekle iletişime geçin."),
     Fixtures.world)
  /\ status Fixtures.alice = Active.
Proof.
  split.
  - apply (proj1 (login_gate (Fixtures.env false) Fixtures.bob
                    Fixtures.world)).
    discriminate.
  - apply (proj2 (login_gate (Fixtures.env false) Fixtures.alice
                    Fixtures.world)
             {| accessToken := "access:1"; refreshToken := "refresh:1" |}
             (Repo.withRefreshTokens
                (cons {| rtId := "rt-new"; rtUser := "1";
                         rtToken := "refresh:1" |})
                Fixtures.world)).
    reflexivity.
Defined.
